(** * The authorization lifecycle of [agent_v35.py]

    A shallow embedding of [EnhancedTPAWithFinalAuth]: the two record
    types, the four in-memory dictionaries of the agent and its six
    methods, followed by the properties of the pre-authorization and
    final-authorization trackers.

    Modelling choices.
    - Monetary amounts are Python numbers; they are modelled as exact
      rationals [Q], compared with [==] where Python compares by value.
    - The dictionaries keyed by [case_id] are [gmap string _].  A record
      object is referenced from exactly one dictionary slot, so an in-place
      assignment to a field of [pre_auth] is an [alter] of that slot.
    - [approval_data] and [discharge_data] are records holding the keys the
      code indexes with [d["key"]]; keys read with [.get] are optional.
    - The clock, the ISO date functions and the two OpenAI calls of
      [ai_openai.py] are supplied by an environment [Env]; a collaborator
      answering [None] stands for the call raising.
    - A method returns its result together with the agent as it is left,
      also when an exception escapes: the agent is a module-level object of
      [app.py] and outlives the failed request. *)

From Stdlib Require Import QArith Qminmax Lqa.
From stdpp Require Import gmap strings list fin_maps.

Local Open Scope string_scope.

(** ** Data model *)

Inductive AuthorizationStatus :=
| PENDING
| QUERY_RAISED
| QUERY_REPLIED
| APPROVED
| REJECTED
| PARTIALLY_APPROVED.

#[global] Instance AuthorizationStatus_eq_dec : EqDecision AuthorizationStatus.
Proof. solve_decision. Defined.

(** A [datetime] value, as microseconds since the epoch. *)
Definition datetime : Type := Z.

(** One element of a record's [queries] list:
    [{"date": ..., "query": ..., "response": ...}]. *)
Record QueryEntry := {
  date : string;
  query : string;
  response : string
}.

Module PreAuthorizationRecord.
Record t := mk {
  case_id : string;
  request_date : datetime;
  requested_amount : Q;
  approval_status : AuthorizationStatus;
  approved_amount : option Q;
  approval_number : option string;
  approval_date : option datetime;
  queries : list QueryEntry;
  rejection_reason : option string
}.

Definition set_approval_status (v : AuthorizationStatus) (r : t) : t :=
  mk (case_id r) (request_date r) (requested_amount r) v (approved_amount r)
     (approval_number r) (approval_date r) (queries r) (rejection_reason r).
Definition set_approved_amount (v : option Q) (r : t) : t :=
  mk (case_id r) (request_date r) (requested_amount r) (approval_status r) v
     (approval_number r) (approval_date r) (queries r) (rejection_reason r).
Definition set_approval_number (v : option string) (r : t) : t :=
  mk (case_id r) (request_date r) (requested_amount r) (approval_status r)
     (approved_amount r) v (approval_date r) (queries r) (rejection_reason r).
Definition set_approval_date (v : option datetime) (r : t) : t :=
  mk (case_id r) (request_date r) (requested_amount r) (approval_status r)
     (approved_amount r) (approval_number r) v (queries r) (rejection_reason r).
(** [r.queries.append(e)] *)
Definition queries_append (e : QueryEntry) (r : t) : t :=
  mk (case_id r) (request_date r) (requested_amount r) (approval_status r)
     (approved_amount r) (approval_number r) (approval_date r)
     (queries r ++ [e]) (rejection_reason r).
End PreAuthorizationRecord.

Module FinalAuthorizationRecord.
Record t := mk {
  case_id : string;
  request_date : datetime;
  final_bill_amount : Q;
  pre_auth_approved : Q;
  additional_amount_requested : Q;
  approval_status : AuthorizationStatus;
  approved_amount : option Q;
  approval_number : option string;
  approval_date : option datetime;
  queries : list QueryEntry;
  deductions : gmap string Q;
  rejection_reason : option string;
  documents_submitted : list string
}.

Definition set_approval_status (v : AuthorizationStatus) (r : t) : t :=
  mk (case_id r) (request_date r) (final_bill_amount r) (pre_auth_approved r)
     (additional_amount_requested r) v (approved_amount r) (approval_number r)
     (approval_date r) (queries r) (deductions r) (rejection_reason r)
     (documents_submitted r).
Definition set_approved_amount (v : option Q) (r : t) : t :=
  mk (case_id r) (request_date r) (final_bill_amount r) (pre_auth_approved r)
     (additional_amount_requested r) (approval_status r) v (approval_number r)
     (approval_date r) (queries r) (deductions r) (rejection_reason r)
     (documents_submitted r).
Definition set_approval_number (v : option string) (r : t) : t :=
  mk (case_id r) (request_date r) (final_bill_amount r) (pre_auth_approved r)
     (additional_amount_requested r) (approval_status r) (approved_amount r) v
     (approval_date r) (queries r) (deductions r) (rejection_reason r)
     (documents_submitted r).
Definition set_approval_date (v : option datetime) (r : t) : t :=
  mk (case_id r) (request_date r) (final_bill_amount r) (pre_auth_approved r)
     (additional_amount_requested r) (approval_status r) (approved_amount r)
     (approval_number r) v (queries r) (deductions r) (rejection_reason r)
     (documents_submitted r).
Definition set_deductions (v : gmap string Q) (r : t) : t :=
  mk (case_id r) (request_date r) (final_bill_amount r) (pre_auth_approved r)
     (additional_amount_requested r) (approval_status r) (approved_amount r)
     (approval_number r) (approval_date r) (queries r) v (rejection_reason r)
     (documents_submitted r).
(** [r.queries.append(e)] *)
Definition queries_append (e : QueryEntry) (r : t) : t :=
  mk (case_id r) (request_date r) (final_bill_amount r) (pre_auth_approved r)
     (additional_amount_requested r) (approval_status r) (approved_amount r)
     (approval_number r) (approval_date r) (queries r ++ [e]) (deductions r)
     (rejection_reason r) (documents_submitted r).
End FinalAuthorizationRecord.

Module Pre := PreAuthorizationRecord.
Module Final := FinalAuthorizationRecord.

(** [patient_data]: a JSON object; only its emptiness and its ["name"] are
    looked at. *)
Abbreviation PatientData := (gmap string string).

(** [discharge_data]: ["final_bill_amount"] is indexed and so required, the
    other keys are read with [.get] and a default. *)
Record DischargeData := {
  final_bill_amount : Q;
  admission_date : option string;
  discharge_date : option string;
  final_diagnosis : option string;
  procedures : option (list string);
  los : option Q;
  complications : option string;
  room_charges : option Q;
  surgery_charges : option Q;
  pharmacy_charges : option Q;
  investigation_charges : option Q;
  doctor_fees : option Q;
  other_charges : option Q
}.

(** [approval_data]: the three indexed keys and the optional
    ["deductions"]. *)
Record ApprovalData := {
  ad_approved_amount : Q;
  ad_approval_number : string;
  ad_approval_date : string;
  ad_deductions : option (gmap string Q)
}.

(** The agent: the four dictionaries set up by [__init__]. *)
Record EnhancedTPAWithFinalAuth := mkTPA {
  cases : gmap string PatientData;
  pre_authorizations : gmap string Pre.t;
  final_authorizations : gmap string Final.t;
  discharge_records : gmap string DischargeData
}.

Definition __init__ : EnhancedTPAWithFinalAuth := mkTPA ∅ ∅ ∅ ∅.

Definition set_cases (f : gmap string PatientData -> gmap string PatientData)
    (self : EnhancedTPAWithFinalAuth) : EnhancedTPAWithFinalAuth :=
  mkTPA (f (cases self)) (pre_authorizations self) (final_authorizations self)
        (discharge_records self).
Definition set_pre_authorizations (f : gmap string Pre.t -> gmap string Pre.t)
    (self : EnhancedTPAWithFinalAuth) : EnhancedTPAWithFinalAuth :=
  mkTPA (cases self) (f (pre_authorizations self)) (final_authorizations self)
        (discharge_records self).
Definition set_final_authorizations
    (f : gmap string Final.t -> gmap string Final.t)
    (self : EnhancedTPAWithFinalAuth) : EnhancedTPAWithFinalAuth :=
  mkTPA (cases self) (pre_authorizations self) (f (final_authorizations self))
        (discharge_records self).
Definition set_discharge_records
    (f : gmap string DischargeData -> gmap string DischargeData)
    (self : EnhancedTPAWithFinalAuth) : EnhancedTPAWithFinalAuth :=
  mkTPA (cases self) (pre_authorizations self) (final_authorizations self)
        (f (discharge_records self)).

(** ** Python values *)

(** Truth value of a number: [bool(x)] is [x != 0]. *)
Definition truthy (x : Q) : bool := negb (Qeq_bool x 0).

(** Truth value of a dictionary: false exactly when it is empty. *)
Definition dict_truthy (d : PatientData) : bool :=
  negb (bool_decide (d = ∅)).

(** [x > y] on numbers. *)
Definition Qgtb (x y : Q) : bool := negb (Qle_bool x y).

(** [o or 0] for an [Optional[float]]: [None] and a zero amount both give
    the literal [0]. *)
Definition or_zero (o : option Q) : Q :=
  match o with
  | Some x => if truthy x then x else 0%Q
  | None => 0%Q
  end.

(** The builtin [max(a, b)]: the first argument unless the second is
    strictly greater. *)
Definition py_max (a b : Q) : Q := if Qgtb b a then b else a.

(** ** Collaborators *)

(** The [case_block] handed to [generate_letter], kept as the values the
    f-string interpolates (its rendering to text belongs to the prompt). *)
Inductive CaseBlock :=
| PreAuthQueryBlock (query_content : string)
| FinalAuthRequestBlock (patient_name : string) (pre_auth_amount : Q)
    (approval_number : option string) (final_bill additional_needed : Q)
    (discharge_data : DischargeData)
| FinalAuthQueryBlock (query_content : string) (final_diagnosis : string)
    (los : Q) (procedures : list string).

Record Env := {
  (** [datetime.now()] *)
  now : datetime;
  (** [d.isoformat()] *)
  isoformat : datetime -> string;
  (** [datetime.fromisoformat(s)]; [None] when it raises [ValueError] *)
  fromisoformat : string -> option datetime;
  (** [ai_openai.generate_letter]; [None] when the call raises *)
  generate_letter : string -> string -> CaseBlock -> string -> option string;
  (** [ai_openai.analyze_final_gap], given the deductions that are dumped
      to JSON; [None] when the call raises *)
  analyze_final_gap : Q -> Q -> gmap string Q -> option string
}.

(** ** Results *)

(** The dictionary returned by [record_final_auth_approval]. *)
Record GapAnalysis := {
  final_bill : Q;
  ga_approved_amount : Q;
  gap_amount : Q;
  gap_percentage : Q;
  ga_deductions : gmap string Q;
  ai_analysis : string;
  requires_escalation : bool
}.

(** The dictionaries the methods return, by their ["status"] (or
    ["error"]) key. *)
Inductive Response :=
| pre_auth_sent (case_id : string) (requested_amount : Q)
| query_replied (response_html : string)
| pre_auth_approved (approved_amount : option Q)
| final_auth_generated (request_letter_html : string) (additional_requested : Q)
| query_analyzed (response_html : string)
| final_auth_approved (analysis : GapAnalysis)
| error (message : string).

Inductive Exn :=
| ValueError    (* datetime.fromisoformat on a malformed date *)
| OpenAIError.  (* a failed call of the generative-text service *)

Inductive Result (A : Type) :=
| Returned (a : A)
| Raised (e : Exn).
Arguments Returned {A} a.
Arguments Raised {A} e.

(** ** A state and exception monad for the method bodies *)

Definition M (A : Type) : Type :=
  EnhancedTPAWithFinalAuth -> Result A * EnhancedTPAWithFinalAuth.

Definition ret {A} (a : A) : M A := fun self => (Returned a, self).
Definition raise {A} (e : Exn) : M A := fun self => (Raised e, self).
Definition bind {A B} (m : M A) (k : A -> M B) : M B :=
  fun self =>
    match m self with
    | (Returned a, self') => k a self'
    | (Raised e, self') => (Raised e, self')
    end.
(** Read one of the agent's attributes. *)
Definition read {A} (f : EnhancedTPAWithFinalAuth -> A) : M A :=
  fun self => (Returned (f self), self).
(** Assign in the agent. *)
Definition write (f : EnhancedTPAWithFinalAuth -> EnhancedTPAWithFinalAuth)
  : M unit :=
  fun self => (Returned tt, f self).
(** A call that answers or raises [e]. *)
Definition try_call {A} (o : option A) (e : Exn) : M A :=
  match o with
  | Some a => ret a
  | None => raise e
  end.

Notation "'let!' x ':=' m 'in' k" := (bind m (fun x => k))
  (at level 10, x name, m at level 100, k at level 200).
Notation "m ';;;' k" := (bind m (fun _ => k))
  (at level 100, k at level 200, right associativity).

(** An assignment to a field of the record object stored under
    [case_id]. *)
Definition pre_auth_assign (case_id : string) (f : Pre.t -> Pre.t) : M unit :=
  write (set_pre_authorizations (alter f case_id)).
Definition final_auth_assign (case_id : string) (f : Final.t -> Final.t)
  : M unit :=
  write (set_final_authorizations (alter f case_id)).

(** ** The methods of [EnhancedTPAWithFinalAuth] *)

Section Methods.
Context (E : Env).

Definition send_preauth_request (case_id : string) (patient_data : PatientData)
    (estimated_cost : Q) : M Response :=
  write (set_cases <[case_id := patient_data]>) ;;;
  write (set_pre_authorizations <[case_id :=
    Pre.mk case_id (now E) estimated_cost PENDING None None None [] None]>) ;;;
  ret (pre_auth_sent case_id estimated_cost).

Definition handle_preauth_query (case_id query_content hospital_block
    insurer_block : string) : M Response :=
  let! pre_auth := read (fun self => pre_authorizations self !! case_id) in
  match pre_auth with
  | None => ret (error "Pre-auth not found")
  | Some _ =>
    let case_block := PreAuthQueryBlock query_content in
    let! html := try_call
      (generate_letter E hospital_block insurer_block case_block
         "pre-authorization") OpenAIError in
    pre_auth_assign case_id (Pre.queries_append
      {| date := isoformat E (now E);
         query := query_content;
         response := html |}) ;;;
    pre_auth_assign case_id (Pre.set_approval_status QUERY_REPLIED) ;;;
    ret (query_replied html)
  end.

Definition record_preauth_approval (case_id : string)
    (approval_data : ApprovalData) : M Response :=
  let! pre_auth := read (fun self => pre_authorizations self !! case_id) in
  match pre_auth with
  | None => ret (error "Pre-auth not found")
  | Some _ =>
    pre_auth_assign case_id (Pre.set_approval_status APPROVED) ;;;
    pre_auth_assign case_id
      (Pre.set_approved_amount (Some (ad_approved_amount approval_data))) ;;;
    pre_auth_assign case_id
      (Pre.set_approval_number (Some (ad_approval_number approval_data))) ;;;
    let! d := try_call (fromisoformat E (ad_approval_date approval_data))
                ValueError in
    pre_auth_assign case_id (Pre.set_approval_date (Some d)) ;;;
    let! approved := read (fun self =>
      pre_authorizations self !! case_id ≫= Pre.approved_amount) in
    ret (pre_auth_approved approved)
  end.

Definition generate_final_auth_request (case_id : string)
    (discharge_data : DischargeData) (hospital_block insurer_block : string)
    : M Response :=
  let! pre_auth := read (fun self => pre_authorizations self !! case_id) in
  let! patient := read (fun self => cases self !! case_id) in
  match pre_auth, patient with
  | Some pre_auth, Some patient =>
    if negb (dict_truthy patient)
    then ret (error "Pre-auth or patient data not found")
    else
      write (set_discharge_records <[case_id := discharge_data]>) ;;;
      let final_bill := final_bill_amount discharge_data in
      let pre_auth_amount := or_zero (Pre.approved_amount pre_auth) in
      let additional_needed := py_max 0 (final_bill - pre_auth_amount) in
      let case_block :=
        FinalAuthRequestBlock (default "N/A" (patient !! "name"))
          pre_auth_amount (Pre.approval_number pre_auth) final_bill
          additional_needed discharge_data in
      let! html := try_call
        (generate_letter E hospital_block insurer_block case_block
           "final authorization") OpenAIError in
      write (set_final_authorizations <[case_id :=
        Final.mk case_id (now E) final_bill pre_auth_amount additional_needed
          PENDING None None None [] ∅ None
          ["Discharge Summary"; "Final Bill (itemized)";
           "Investigation Reports"; "Pharmacy Bills"; "OT Notes";
           "IPD Charts"]]>) ;;;
      ret (final_auth_generated html additional_needed)
  | _, _ => ret (error "Pre-auth or patient data not found")
  end.

Definition handle_final_auth_query (case_id query_content hospital_block
    insurer_block : string) : M Response :=
  let! final_auth := read (fun self => final_authorizations self !! case_id) in
  let! discharge := read (fun self => discharge_records self !! case_id) in
  (* a stored [discharge_data] holds ["final_bill_amount"], so it is a
     non-empty dictionary and [not discharge] is [discharge is None] *)
  match final_auth, discharge with
  | Some _, Some discharge =>
    let case_block :=
      FinalAuthQueryBlock query_content
        (default "N/A" (final_diagnosis discharge))
        (default 0%Q (los discharge))
        (default [] (procedures discharge)) in
    let! html := try_call
      (generate_letter E hospital_block insurer_block case_block
         "final authorization") OpenAIError in
    final_auth_assign case_id (Final.queries_append
      {| date := isoformat E (now E);
         query := query_content;
         response := html |}) ;;;
    final_auth_assign case_id (Final.set_approval_status QUERY_REPLIED) ;;;
    ret (query_analyzed html)
  | _, _ => ret (error "Final auth or discharge data not found")
  end.

Definition record_final_auth_approval (case_id : string)
    (approval_data : ApprovalData) : M Response :=
  let! final_auth := read (fun self => final_authorizations self !! case_id) in
  match final_auth with
  | None => ret (error "Final auth not found")
  | Some final_auth =>
    final_auth_assign case_id (Final.set_approval_status APPROVED) ;;;
    final_auth_assign case_id
      (Final.set_approved_amount (Some (ad_approved_amount approval_data))) ;;;
    final_auth_assign case_id
      (Final.set_approval_number (Some (ad_approval_number approval_data))) ;;;
    let! d := try_call (fromisoformat E (ad_approval_date approval_data))
                ValueError in
    final_auth_assign case_id (Final.set_approval_date (Some d)) ;;;
    let deductions := default ∅ (ad_deductions approval_data) in
    final_auth_assign case_id (Final.set_deductions deductions) ;;;
    let billed := Final.final_bill_amount final_auth in
    (* [final_auth.approved_amount], assigned four lines above *)
    let approved := ad_approved_amount approval_data in
    let gap := (billed - approved)%Q in
    let gap_pct := if truthy billed then (gap / billed * 100)%Q else 0%Q in
    let! analysis := try_call (analyze_final_gap E billed approved deductions)
                       OpenAIError in
    ret (final_auth_approved
      {| final_bill := billed;
         ga_approved_amount := approved;
         gap_amount := gap;
         gap_percentage := gap_pct;
         ga_deductions := deductions;
         ai_analysis := analysis;
         requires_escalation := Qgtb gap_pct 20 |})
  end.

End Methods.

(** ** The agent as a transition system *)

(** A method call on the agent of [app.py], with its arguments. *)
Inductive Call :=
| SendPreauthRequest (case_id : string) (patient_data : PatientData)
    (estimated_cost : Q)
| HandlePreauthQuery (case_id query_content hospital_block insurer_block : string)
| RecordPreauthApproval (case_id : string) (approval_data : ApprovalData)
| GenerateFinalAuthRequest (case_id : string) (discharge_data : DischargeData)
    (hospital_block insurer_block : string)
| HandleFinalAuthQuery (case_id query_content hospital_block insurer_block : string)
| RecordFinalAuthApproval (case_id : string) (approval_data : ApprovalData).

Definition dispatch (E : Env) (c : Call) : M Response :=
  match c with
  | SendPreauthRequest case_id patient_data estimated_cost =>
      send_preauth_request E case_id patient_data estimated_cost
  | HandlePreauthQuery case_id query_content hospital_block insurer_block =>
      handle_preauth_query E case_id query_content hospital_block insurer_block
  | RecordPreauthApproval case_id approval_data =>
      record_preauth_approval E case_id approval_data
  | GenerateFinalAuthRequest case_id discharge_data hospital_block insurer_block =>
      generate_final_auth_request E case_id discharge_data hospital_block
        insurer_block
  | HandleFinalAuthQuery case_id query_content hospital_block insurer_block =>
      handle_final_auth_query E case_id query_content hospital_block
        insurer_block
  | RecordFinalAuthApproval case_id approval_data =>
      record_final_auth_approval E case_id approval_data
  end.

(** The agent after a call, whether the call returned or raised. *)
Definition exec (E : Env) (c : Call) (self : EnhancedTPAWithFinalAuth)
  : EnhancedTPAWithFinalAuth :=
  snd (dispatch E c self).

(** The states the agent can be in: any number of calls, in any
    environments, after [__init__]. *)
Inductive reachable : EnhancedTPAWithFinalAuth -> Prop :=
| reachable_init : reachable __init__
| reachable_call E c self : reachable self -> reachable (exec E c self).

(** Calls that put a new record object under [case_id]. *)
Definition creates_pre_auth (case_id : string) (c : Call) : bool :=
  match c with
  | SendPreauthRequest i _ _ => bool_decide (i = case_id)
  | _ => false
  end.
Definition creates_final_auth (case_id : string) (c : Call) : bool :=
  match c with
  | GenerateFinalAuthRequest i _ _ _ => bool_decide (i = case_id)
  | _ => false
  end.
(** Calls that answer a query on the record under [case_id]. *)
Definition queries_pre_auth (case_id : string) (c : Call) : bool :=
  match c with
  | HandlePreauthQuery i _ _ _ => bool_decide (i = case_id)
  | _ => false
  end.
Definition queries_final_auth (case_id : string) (c : Call) : bool :=
  match c with
  | HandleFinalAuthQuery i _ _ _ => bool_decide (i = case_id)
  | _ => false
  end.

(** ** The effect of a call on one record *)

(** The record a successful pre-authorization approval leaves, and the one
    left when the approval date does not parse. *)
Definition pre_auth_approved_undated (a : ApprovalData) (r : Pre.t) : Pre.t :=
  Pre.set_approval_number (Some (ad_approval_number a))
    (Pre.set_approved_amount (Some (ad_approved_amount a))
       (Pre.set_approval_status APPROVED r)).
Definition pre_auth_approved_dated (a : ApprovalData) (d : datetime)
    (r : Pre.t) : Pre.t :=
  Pre.set_approval_date (Some d) (pre_auth_approved_undated a r).
Definition pre_auth_replied (e : QueryEntry) (r : Pre.t) : Pre.t :=
  Pre.set_approval_status QUERY_REPLIED (Pre.queries_append e r).

Definition final_auth_approved_undated (a : ApprovalData) (r : Final.t)
  : Final.t :=
  Final.set_approval_number (Some (ad_approval_number a))
    (Final.set_approved_amount (Some (ad_approved_amount a))
       (Final.set_approval_status APPROVED r)).
Definition final_auth_approved_dated (a : ApprovalData) (d : datetime)
    (r : Final.t) : Final.t :=
  Final.set_deductions (default ∅ (ad_deductions a))
    (Final.set_approval_date (Some d) (final_auth_approved_undated a r)).
Definition final_auth_replied (e : QueryEntry) (r : Final.t) : Final.t :=
  Final.set_approval_status QUERY_REPLIED (Final.queries_append e r).

(** What one call does to the pre-authorization slot of [case_id]. *)
Inductive pre_auth_step (E : Env) (case_id : string)
  : Call -> option Pre.t -> option Pre.t -> Prop :=
| pre_auth_kept c o :
    creates_pre_auth case_id c = false ->
    pre_auth_step E case_id c o o
| pre_auth_created patient_data estimated_cost o :
    pre_auth_step E case_id
      (SendPreauthRequest case_id patient_data estimated_cost) o
      (Some (Pre.mk case_id (now E) estimated_cost PENDING None None None []
               None))
| pre_auth_queried query_content hospital_block insurer_block html r :
    pre_auth_step E case_id
      (HandlePreauthQuery case_id query_content hospital_block insurer_block)
      (Some r)
      (Some (pre_auth_replied
               {| date := isoformat E (now E);
                  query := query_content;
                  response := html |} r))
| pre_auth_approval_undated approval_data r :
    fromisoformat E (ad_approval_date approval_data) = None ->
    pre_auth_step E case_id (RecordPreauthApproval case_id approval_data)
      (Some r) (Some (pre_auth_approved_undated approval_data r))
| pre_auth_approval_dated approval_data d r :
    fromisoformat E (ad_approval_date approval_data) = Some d ->
    pre_auth_step E case_id (RecordPreauthApproval case_id approval_data)
      (Some r) (Some (pre_auth_approved_dated approval_data d r)).

(** What one call does to the final-authorization slot of [case_id]. *)
Inductive final_auth_step (E : Env) (case_id : string)
  : Call -> option Final.t -> option Final.t -> Prop :=
| final_auth_kept c o :
    final_auth_step E case_id c o o
| final_auth_created discharge_data hospital_block insurer_block
    pre_auth_amount o :
    final_auth_step E case_id
      (GenerateFinalAuthRequest case_id discharge_data hospital_block
         insurer_block) o
      (Some (Final.mk case_id (now E) (final_bill_amount discharge_data)
               pre_auth_amount
               (py_max 0 (final_bill_amount discharge_data - pre_auth_amount))
               PENDING None None None [] ∅ None
               ["Discharge Summary"; "Final Bill (itemized)";
                "Investigation Reports"; "Pharmacy Bills"; "OT Notes";
                "IPD Charts"]))
| final_auth_queried query_content hospital_block insurer_block html r :
    final_auth_step E case_id
      (HandleFinalAuthQuery case_id query_content hospital_block insurer_block)
      (Some r)
      (Some (final_auth_replied
               {| date := isoformat E (now E);
                  query := query_content;
                  response := html |} r))
| final_auth_approval_undated approval_data r :
    fromisoformat E (ad_approval_date approval_data) = None ->
    final_auth_step E case_id (RecordFinalAuthApproval case_id approval_data)
      (Some r) (Some (final_auth_approved_undated approval_data r))
| final_auth_approval_dated approval_data d r :
    fromisoformat E (ad_approval_date approval_data) = Some d ->
    final_auth_step E case_id (RecordFinalAuthApproval case_id approval_data)
      (Some r) (Some (final_auth_approved_dated approval_data d r)).

(** ** Invariants *)

(** Status and approved amount of a pre-authorization record. *)
Definition pre_auth_inv (r : Pre.t) : Prop :=
  match Pre.approval_status r with
  | PENDING => Pre.approved_amount r = None
  | QUERY_REPLIED => True
  | APPROVED => is_Some (Pre.approved_amount r)
  | QUERY_RAISED | REJECTED | PARTIALLY_APPROVED => False
  end.

(** Statuses a final-authorization record takes. *)
Definition final_auth_inv (r : Final.t) : Prop :=
  match Final.approval_status r with
  | PENDING | QUERY_REPLIED | APPROVED => True
  | QUERY_RAISED | REJECTED | PARTIALLY_APPROVED => False
  end.


(** ** Sample environments and inputs *)

(** Every collaborator answers. *)
Definition env_up : Env :=
  {| now := 1700000000000000%Z;
     isoformat := fun _ => "2023-11-14T22:13:20";
     fromisoformat := fun s => if bool_decide (s = "") then None else Some 0%Z;
     generate_letter := fun _ _ _ _ => Some "<pre>letter</pre>";
     analyze_final_gap := fun _ _ _ => Some "analysis" |}.

(** The generative-text service is down. *)
Definition env_down : Env :=
  {| now := 1700000000000000%Z;
     isoformat := fun _ => "2023-11-14T22:13:20";
     fromisoformat := fun s => if bool_decide (s = "") then None else Some 0%Z;
     generate_letter := fun _ _ _ _ => None;
     analyze_final_gap := fun _ _ _ => None |}.

Definition patient_C1 : PatientData := {[ "name" := "A. Patient" ]}.

Definition approval (amount : Q) (number : string) : ApprovalData :=
  {| ad_approved_amount := amount;
     ad_approval_number := number;
     ad_approval_date := "2024-01-15";
     ad_deductions := None |}.

Definition discharge (bill : Q) : DischargeData :=
  {| final_bill_amount := bill;
     admission_date := Some "2024-01-01";
     discharge_date := Some "2024-01-10";
     final_diagnosis := Some "Appendicitis";
     procedures := Some ["Appendectomy"];
     los := Some 9%Q;
     complications := None;
     room_charges := None;
     surgery_charges := None;
     pharmacy_charges := None;
     investigation_charges := None;
     doctor_fees := None;
     other_charges := None |}.

(** Case C1 of the scenario: pre-authorization requested for 50000. *)
Definition st_requested : EnhancedTPAWithFinalAuth :=
  exec env_up (SendPreauthRequest "C1" patient_C1 50000%Q) __init__.
(** ... then approved for 45000. *)
Definition st_approved : EnhancedTPAWithFinalAuth :=
  exec env_up (RecordPreauthApproval "C1" (approval 45000%Q "PA-1")) st_requested.
(** ... then a query answered on it. *)
Definition st_queried : EnhancedTPAWithFinalAuth :=
  exec env_up (HandlePreauthQuery "C1" "Why surgery?" "H" "I") st_approved.
(** ... then the final authorization requested on a bill of 60000. *)
Definition st_final : EnhancedTPAWithFinalAuth :=
  exec env_up (GenerateFinalAuthRequest "C1" (discharge 60000%Q) "H" "I")
    st_approved.


(** The final-authorization record of [st_final]. *)
Definition final_C1 : Final.t :=
  Final.mk "C1" (now env_up) 60000 45000 15000 PENDING None None None [] ∅ None
    ["Discharge Summary"; "Final Bill (itemized)"; "Investigation Reports";
     "Pharmacy Bills"; "OT Notes"; "IPD Charts"].


(** ** Calls, guards and well-formed records *)

(** The [case_id] argument of a call. *)
Definition call_case_id (c : Call) : string :=
  match c with
  | SendPreauthRequest i _ _ => i
  | HandlePreauthQuery i _ _ _ => i
  | RecordPreauthApproval i _ => i
  | GenerateFinalAuthRequest i _ _ _ => i
  | HandleFinalAuthQuery i _ _ _ => i
  | RecordFinalAuthApproval i _ => i
  end.


(** The checklist every final-authorization record is created with. *)
Definition documents_checklist : list string :=
  ["Discharge Summary"; "Final Bill (itemized)"; "Investigation Reports";
   "Pharmacy Bills"; "OT Notes"; "IPD Charts"].

(** What holds of a pre-authorization record stored under [key]. *)
Definition pre_auth_wf (key : string) (r : Pre.t) : Prop :=
  Pre.case_id r = key
  /\ Pre.rejection_reason r = None
  /\ (is_Some (Pre.approval_number r) <-> is_Some (Pre.approved_amount r))
  /\ (is_Some (Pre.approval_date r) -> is_Some (Pre.approved_amount r))
  /\ (Pre.approval_status r = PENDING ->
        Pre.queries r = [] /\ Pre.approved_amount r = None).

(** What holds of a final-authorization record stored under [key]. *)
Definition final_auth_wf (key : string) (r : Final.t) : Prop :=
  Final.case_id r = key
  /\ Final.rejection_reason r = None
  /\ Final.documents_submitted r = documents_checklist
  /\ (Final.additional_amount_requested r
        == Qmax 0 (Final.final_bill_amount r - Final.pre_auth_approved r))%Q
  /\ (is_Some (Final.approval_number r) <-> is_Some (Final.approved_amount r))
  /\ (is_Some (Final.approval_date r) -> is_Some (Final.approved_amount r))
  /\ (Final.approval_status r = APPROVED -> is_Some (Final.approved_amount r))
  /\ (is_Some (Final.approved_amount r) ->
        Final.approval_status r = APPROVED
        \/ Final.approval_status r = QUERY_REPLIED)
  /\ (Final.approval_status r = PENDING ->
        Final.queries r = [] /\ Final.approved_amount r = None
        /\ Final.deductions r = ∅).

(** The records of one case come in order: patient data with the
    pre-authorization, and pre-authorization, patient data and discharge
    record with the final authorization. *)
Definition linked (self : EnhancedTPAWithFinalAuth) : Prop :=
  forall case_id : string,
    (is_Some (pre_authorizations self !! case_id) ->
       is_Some (cases self !! case_id))
    /\ (is_Some (final_authorizations self !! case_id) ->
          is_Some (pre_authorizations self !! case_id)
          /\ is_Some (cases self !! case_id)
          /\ is_Some (discharge_records self !! case_id)).

(** Several queries answered in turn on one pre-authorization, in one
    environment. *)
Fixpoint handle_preauth_queries (E : Env) (case_id : string)
    (hospital_block insurer_block : string) (queries : list string)
    (self : EnhancedTPAWithFinalAuth) : EnhancedTPAWithFinalAuth :=
  match queries with
  | [] => self
  | query_content :: rest =>
      handle_preauth_queries E case_id hospital_block insurer_block rest
        (snd (handle_preauth_query E case_id query_content hospital_block
                insurer_block self))
  end.

(** The final authorization of case C1 approved for 50000. *)
Definition st_final_approved : EnhancedTPAWithFinalAuth :=
  exec env_up (RecordFinalAuthApproval "C1" (approval 50000 "FA-1")) st_final.

(** ** The web layer of [app.py]: tenants, login, sender settings *)

(** The rows of [models.py] that the helpers of [app.py] read.  A nullable
    column is an [option]; a table is the list of its rows. *)

Definition ROLE_SUPERADMIN : string := "superadmin".
Definition ROLE_HOSPITAL_ADMIN : string := "hospital_admin".
Definition ROLE_STAFF : string := "staff".

Module Hospital.
Record t := mk {
  id : Z;
  name : string;
  address : option string;
  rohini_id : option string;
  phone : option string;
  admin_contact : option string;
  smtp_host : option string;
  smtp_port : option Z;
  smtp_user : option string;
  smtp_pass : option string;
  sender_name : option string;
  sender_email : option string;
  is_active : bool;
  is_data_opt_in : bool
}.
End Hospital.

Module User.
Record t := mk {
  id : Z;
  email : string;
  password_hash : string;
  role : option string;
  hospital_id : option Z;
  is_active : bool
}.
End User.

Module App.

(** The claims of a token, as [get_jwt()] gives them: only ["role"] and
    ["hospital_id"] are read, with [.get]. *)
Record Claims := {
  role : option string;
  hospital_id : option Z
}.

(** [current_hid()], for the claims of the request. *)
Definition current_hid (c : Claims) : option Z :=
  if bool_decide (role c = Some ROLE_SUPERADMIN) then None else hospital_id c.

(** [tenant_ok(row_hid)]: [hid is None or hid == row_hid]. *)
Definition tenant_ok (c : Claims) (row_hid : Z) : bool :=
  let hid := current_hid c in
  match hid with
  | None => true
  | Some hid => bool_decide (hid = row_hid)
  end.

(** The two tables read at login. *)
Record Db := {
  users : list User.t;
  hospitals : list Hospital.t
}.

(** [User.query.filter_by(email=e).first()] *)
Definition user_by_email (db : Db) (e : string) : option User.t :=
  List.find (fun u => bool_decide (User.email u = e)) (users db).

(** [User.query.get(i)] *)
Definition user_get (db : Db) (i : Z) : option User.t :=
  List.find (fun u => bool_decide (User.id u = i)) (users db).

(** [Hospital.query.get(i)]; [get(None)] finds nothing. *)
Definition hospital_get (db : Db) (i : option Z) : option Hospital.t :=
  match i with
  | Some i => List.find (fun h => bool_decide (Hospital.id h = i)) (hospitals db)
  | None => None
  end.

(** [add_claims(identity)], the additional-claims loader; [None] when the
    user is not found and [user.role] raises. *)
Definition add_claims (db : Db) (identity : Z) : option Claims :=
  match user_get db identity with
  | Some user =>
      Some {| role := User.role user; hospital_id := User.hospital_id user |}
  | None => None
  end.

(** The body of a login request. *)
Record Credentials := {
  cred_email : string;
  cred_password : string
}.

(** An access token: its identity and the claims loaded when it was
    created. *)
Record Token := {
  identity : Z;
  token_claims : Claims
}.

(** The answers of [/auth/login], with their status codes. *)
Inductive LoginResponse :=
| invalid_credentials      (* 401 *)
| hospital_not_approved    (* 403 *)
| access_token (t : Token). (* 200 *)

(** [create_access_token(identity=i, ...)]: the claims loader runs on the
    identity. *)
Definition create_access_token (db : Db) (i : Z) : option Token :=
  match add_claims db i with
  | Some c => Some {| identity := i; token_claims := c |}
  | None => None
  end.

(** [login()], given [check_password_hash]; [None] when the claims loader
    raises. *)
Definition login (check_password_hash : string -> string -> bool) (db : Db)
    (data : Credentials) : option LoginResponse :=
  let u := user_by_email db (cred_email data) in
  match u with
  | None => Some invalid_credentials
  | Some u =>
    if negb (check_password_hash (User.password_hash u) (cred_password data))
    then Some invalid_credentials
    else
      let approved :=
        if bool_decide (User.role u <> Some ROLE_SUPERADMIN)
        then
          let h := hospital_get db (User.hospital_id u) in
          match h with
          | None => false
          | Some h => Hospital.is_active h
          end
        else true in
      if negb approved then Some hospital_not_approved
      else
        match create_access_token db (User.id u) with
        | Some token => Some (access_token token)
        | None => None
        end
  end.

(** [x or y] on an optional string: [None] and the empty string are
    false. *)
Definition str_or (x y : option string) : option string :=
  match x with
  | Some s => if bool_decide (s = "") then y else Some s
  | None => y
  end.

(** The dictionary [resolve_sender] returns. *)
Record Sender := {
  host : option string;
  port : Z;
  user : option string;
  pwd : option string;
  sender_name : option string;
  sender_email : option string
}.

(** [resolve_sender(h)], given the process environment and [int] on
    strings ([None] when it raises [ValueError]). *)
Definition resolve_sender (environ : gmap string string)
    (int : string -> option Z) (h : Hospital.t) : option Sender :=
  let getenv (k : string) : option string := environ !! k in
  let port :=
    match Hospital.smtp_port h with
    | Some p => if bool_decide (p = 0%Z)
                then int (default "465" (getenv "SMTP_PORT"))
                else Some p
    | None => int (default "465" (getenv "SMTP_PORT"))
    end in
  match port with
  | None => None
  | Some port =>
      Some {| host := str_or (Hospital.smtp_host h) (getenv "SMTP_HOST");
              port := port;
              user := str_or (Hospital.smtp_user h) (getenv "SMTP_USER");
              pwd := str_or (Hospital.smtp_pass h) (getenv "SMTP_PASS");
              sender_name :=
                str_or (Hospital.sender_name h)
                  (Some (default "TPA Desk" (getenv "SENDER_NAME")));
              sender_email :=
                str_or (Hospital.sender_email h)
                  (match getenv "SENDER_EMAIL" with
                   | Some e => Some e
                   | None => getenv "SMTP_USER"
                   end) |}
  end.

End App.

(** An active hospital without sender settings of its own, and one with
    its own SMTP host and port. *)
Definition hospital_H7 : Hospital.t :=
  Hospital.mk 7 "H7" None None None None None None None None None None
    true true.
Definition hospital_H8 : Hospital.t :=
  Hospital.mk 8 "H8" None None None None (Some "smtp.h8.example")
    (Some 587%Z) None None None None true true.

(** An [int] that reads the two port numbers used below. *)
Definition int_sample (s : string) : option Z :=
  if bool_decide (s = "465") then Some 465%Z
  else if bool_decide (s = "2525") then Some 2525%Z
  else None.

(** Sample tables: a superadmin without hospital, and one staff member of
    the active hospital 7 whose own account is switched off. *)
Definition db_sample : App.Db :=
  {| App.users :=
       [ User.mk 1 "root@tpa" "h-root" (Some ROLE_SUPERADMIN) None true;
         User.mk 2 "staff@h7" "h-staff" (Some ROLE_STAFF) (Some 7%Z) false ];
     App.hospitals := [ hospital_H7 ] |}.

(** A password check that accepts the password equal to the stored hash. *)
Definition check_sample (password_hash password : string) : bool :=
  bool_decide (password_hash = password).

(** Every user's account switched off. *)
Definition deactivate_users (db : App.Db) : App.Db :=
  {| App.users :=
       map (fun u => User.mk (User.id u) (User.email u) (User.password_hash u)
                       (User.role u) (User.hospital_id u) false)
         (App.users db);
     App.hospitals := App.hospitals db |}.

(** * Properties *)

(** ** Python arithmetic on amounts *)

Lemma Qgtb_lt (x y : Q) : Qgtb x y = true <-> (y < x)%Q.
Proof.
  unfold Qgtb. rewrite negb_true_iff, <- not_true_iff_false, Qle_bool_iff.
  split; [apply Qnot_le_lt | apply Qlt_not_le].
Qed.






Lemma py_max_Qmax (a b : Q) : (py_max a b == Qmax a b)%Q.
Proof.
  unfold py_max. destruct (Qgtb b a) eqn:H.
  - apply Qgtb_lt in H. symmetry. apply Q.max_r. lra.
  - apply not_true_iff_false in H. rewrite Qgtb_lt in H.
    symmetry. apply Q.max_l. lra.
Qed.

(** Unfolding of a method body down to the state function. *)
Ltac run_method :=
  unfold send_preauth_request, handle_preauth_query, record_preauth_approval,
    generate_final_auth_request, handle_final_auth_query,
    record_final_auth_approval, pre_auth_assign, final_auth_assign,
    bind, read, write, try_call, ret, raise;
  cbn [fst snd].

(** ** Gap analysis of [record_final_auth_approval] *)






(** ** The additional amount of [generate_final_auth_request] *)



(** ** Lookups that find nothing *)

(** C4. For a [case_id] without a pre-authorization record,
    [handle_preauth_query], [record_preauth_approval] and
    [generate_final_auth_request] return their not-found error and leave the
    agent as it was; for a [case_id] without a final-authorization record so
    do [handle_final_auth_query] and [record_final_auth_approval].  The same
    holds for [generate_final_auth_request] without patient data and for
    [handle_final_auth_query] without a discharge record. *)
Theorem not_found_leaves_state_unchanged
    (E : Env) (self : EnhancedTPAWithFinalAuth) (case_id : string)
    (query_content hospital_block insurer_block : string)
    (approval_data : ApprovalData) (discharge_data : DischargeData) :
  (pre_authorizations self !! case_id = None ->
     handle_preauth_query E case_id query_content hospital_block insurer_block
       self = (Returned (error "Pre-auth not found"), self)
     /\ record_preauth_approval E case_id approval_data self
        = (Returned (error "Pre-auth not found"), self)
     /\ generate_final_auth_request E case_id discharge_data hospital_block
          insurer_block self
        = (Returned (error "Pre-auth or patient data not found"), self))
  /\ (final_authorizations self !! case_id = None ->
     handle_final_auth_query E case_id query_content hospital_block
       insurer_block self
       = (Returned (error "Final auth or discharge data not found"), self)
     /\ record_final_auth_approval E case_id approval_data self
        = (Returned (error "Final auth not found"), self))
  /\ (cases self !! case_id = None ->
     generate_final_auth_request E case_id discharge_data hospital_block
       insurer_block self
     = (Returned (error "Pre-auth or patient data not found"), self))
  /\ (discharge_records self !! case_id = None ->
     handle_final_auth_query E case_id query_content hospital_block
       insurer_block self
     = (Returned (error "Final auth or discharge data not found"), self)).
Proof.
  split; [|split; [|split]]; intros Hnone.
  - repeat split; run_method; rewrite Hnone; reflexivity.
  - split; run_method; rewrite Hnone; reflexivity.
  - run_method. rewrite Hnone.
    destruct (pre_authorizations self !! case_id); reflexivity.
  - run_method. rewrite Hnone.
    destruct (final_authorizations self !! case_id); reflexivity.
Qed.

(** Case C2 was never registered; case C1 has no final authorization yet. *)
Lemma not_found_leaves_state_unchanged_witness :
  pre_authorizations st_approved !! "C2" = None
  /\ final_authorizations st_approved !! "C1" = None
  /\ handle_preauth_query env_up "C2" "Why?" "H" "I" st_approved
     = (Returned (error "Pre-auth not found"), st_approved)
  /\ record_final_auth_approval env_up "C1" (approval 50000 "FA-1") st_approved
     = (Returned (error "Final auth not found"), st_approved).
Proof.
  split; [reflexivity|]. split; [reflexivity|].
  destruct (not_found_leaves_state_unchanged env_up st_approved "C2" "Why?"
              "H" "I" (approval 50000 "FA-1") (discharge 60000))
    as ((Hq & _) & _); [reflexivity|].
  destruct (not_found_leaves_state_unchanged env_up st_approved "C1" "Why?"
              "H" "I" (approval 50000 "FA-1") (discharge 60000))
    as (_ & (_ & Ha) & _); [reflexivity|].
  split; [exact Hq | exact Ha].
Defined.

(** ** Creating a pre-authorization twice *)

(** C7, as the code has it. [send_preauth_request] on a [case_id] that
    already has a pre-authorization does not fail: it returns
    [pre_auth_sent], replaces the record by a new pending one for the new
    estimated cost (no approval fields, no queries) and replaces the patient
    data; other cases, final authorizations and discharge records are
    untouched. *)
Theorem send_preauth_request_overwrites
    (E : Env) (self : EnhancedTPAWithFinalAuth) (case_id : string)
    (patient_data : PatientData) (estimated_cost : Q) (old : Pre.t) :
  pre_authorizations self !! case_id = Some old ->
  let self' := snd (send_preauth_request E case_id patient_data estimated_cost
                      self) in
  fst (send_preauth_request E case_id patient_data estimated_cost self)
    = Returned (pre_auth_sent case_id estimated_cost)
  /\ pre_authorizations self' !! case_id
     = Some (Pre.mk case_id (now E) estimated_cost PENDING None None None []
               None)
  /\ cases self' !! case_id = Some patient_data
  /\ (forall other : string, other <> case_id ->
        pre_authorizations self' !! other = pre_authorizations self !! other
        /\ cases self' !! other = cases self !! other)
  /\ final_authorizations self' = final_authorizations self
  /\ discharge_records self' = discharge_records self.
Proof.
  intros _ self'. subst self'. run_method.
  cbn [pre_authorizations cases final_authorizations discharge_records
       set_cases set_pre_authorizations].
  split; [reflexivity|].
  split; [apply lookup_insert_eq|].
  split; [apply lookup_insert_eq|].
  split; [|split; reflexivity].
  intros other Hne. split; apply lookup_insert_ne; congruence.
Qed.

(** Case C1, approved and queried, requested again for 70000. *)
Lemma send_preauth_request_overwrites_witness :
  is_Some (pre_authorizations st_queried !! "C1")
  /\ fst (send_preauth_request env_up "C1" patient_C1 70000 st_queried)
     = Returned (pre_auth_sent "C1" 70000)
  /\ pre_authorizations
       (snd (send_preauth_request env_up "C1" patient_C1 70000 st_queried))
       !! "C1"
     = Some (Pre.mk "C1" (now env_up) 70000 PENDING None None None [] None).
Proof.
  split; [eexists; reflexivity|].
  destruct (send_preauth_request_overwrites env_up st_queried "C1" patient_C1
              70000 _ eq_refl) as (Hret & Hrec & _).
  split; [exact Hret | exact Hrec].
Defined.

(** C7 as stated fails: the second request for case C1 is answered with
    [pre_auth_sent], not with an error, and the stored record is no longer
    the one that was there. *)
Lemma send_preauth_request_no_duplicate_error :
  exists old : Pre.t,
    pre_authorizations st_queried !! "C1" = Some old
    /\ fst (send_preauth_request env_up "C1" patient_C1 70000 st_queried)
       = Returned (pre_auth_sent "C1" 70000)
    /\ pre_authorizations
         (snd (send_preauth_request env_up "C1" patient_C1 70000 st_queried))
         !! "C1" <> Some old.
Proof.
  eexists. split; [reflexivity|]. split; [reflexivity|]. discriminate.
Qed.

(** ** A failing letter generator *)

(** C3, as the code has it. When [generate_letter] raises, the exception
    escapes and: [handle_preauth_query] and [handle_final_auth_query] leave
    the agent exactly as it was; [generate_final_auth_request] leaves the
    cases, the pre-authorization records and the final-authorization records
    as they were (so every status and query sequence), but when the
    pre-authorization and the patient data were found it has already stored
    [discharge_data] as the discharge record of [case_id]. *)
Theorem letter_failure_state
    (E : Env) (self : EnhancedTPAWithFinalAuth) (case_id : string)
    (query_content hospital_block insurer_block : string)
    (discharge_data : DischargeData) :
  (forall (case_block : CaseBlock) (phase : string),
     generate_letter E hospital_block insurer_block case_block phase = None) ->
  let after_pre_query :=
    handle_preauth_query E case_id query_content hospital_block insurer_block
      self in
  let after_final_query :=
    handle_final_auth_query E case_id query_content hospital_block
      insurer_block self in
  let after_final_request :=
    generate_final_auth_request E case_id discharge_data hospital_block
      insurer_block self in
  snd after_pre_query = self
  /\ (is_Some (pre_authorizations self !! case_id) ->
        fst after_pre_query = Raised OpenAIError)
  /\ snd after_final_query = self
  /\ (is_Some (final_authorizations self !! case_id) ->
      is_Some (discharge_records self !! case_id) ->
        fst after_final_query = Raised OpenAIError)
  /\ cases (snd after_final_request) = cases self
  /\ pre_authorizations (snd after_final_request) = pre_authorizations self
  /\ final_authorizations (snd after_final_request)
     = final_authorizations self
  /\ (forall other : string, other <> case_id ->
        discharge_records (snd after_final_request) !! other
        = discharge_records self !! other)
  /\ (forall patient : PatientData,
        is_Some (pre_authorizations self !! case_id) ->
        cases self !! case_id = Some patient -> patient <> ∅ ->
        fst after_final_request = Raised OpenAIError
        /\ discharge_records (snd after_final_request) !! case_id
           = Some discharge_data).
Proof.
  intros Hdown. cbn zeta. run_method.
  split; [|split; [|split; [|split]]].
  - destruct (pre_authorizations self !! case_id); cbn [fst snd];
      [rewrite Hdown|]; reflexivity.
  - intros [pre_auth ->]. rewrite Hdown. reflexivity.
  - destruct (final_authorizations self !! case_id),
      (discharge_records self !! case_id); cbn [fst snd];
      try rewrite Hdown; reflexivity.
  - intros [final_auth ->] [discharge ->]. rewrite Hdown. reflexivity.
  - destruct (pre_authorizations self !! case_id) as [pre_auth|] eqn:Hpre.
    2:{ cbn [fst snd]. do 4 (split; [reflexivity|]).
        intros patient [? ?]; discriminate. }
    destruct (cases self !! case_id) as [patient|] eqn:Hpat.
    2:{ cbn [fst snd]. do 4 (split; [reflexivity|]).
        intros patient _ ?; discriminate. }
    unfold dict_truthy. rewrite negb_involutive.
    destruct (bool_decide_reflect (patient = ∅)) as [Hemp|Hne]; cbn [fst snd].
    + do 4 (split; [reflexivity|]).
      intros patient' _ [= <-] Hne. contradiction.
    + rewrite Hdown. cbn [fst snd].
      do 3 (split; [reflexivity|]). split.
      * intros other Hother. cbn. apply lookup_insert_ne. congruence.
      * intros patient' _ _ _. split; [reflexivity|].
        cbn. apply lookup_insert_eq.
Qed.

(** The service is down while case C1 is queried. *)
Lemma letter_failure_state_witness :
  (forall (case_block : CaseBlock) (phase : string),
     generate_letter env_down "H" "I" case_block phase = None)
  /\ handle_preauth_query env_down "C1" "Why surgery?" "H" "I" st_approved
     = (Raised OpenAIError, st_approved).
Proof.
  split; [reflexivity|].
  destruct (letter_failure_state env_down st_approved "C1" "Why surgery?"
              "H" "I" (discharge 60000) (fun _ _ => eq_refl))
    as (Hstate & Hraise & _).
  rewrite (surjective_pairing (handle_preauth_query _ _ _ _ _ _)).
  rewrite Hstate, Hraise; [reflexivity | eexists; reflexivity].
Defined.

(** C3 as stated fails for [generate_final_auth_request]: with the service
    down the call raises, yet case C1, which had no discharge record, now
    has one. *)
Lemma generate_final_auth_request_letter_failure_stores_discharge :
  (forall (case_block : CaseBlock) (phase : string),
     generate_letter env_down "H" "I" case_block phase = None)
  /\ fst (generate_final_auth_request env_down "C1" (discharge 60000) "H" "I"
            st_approved) = Raised OpenAIError
  /\ discharge_records st_approved !! "C1" = None
  /\ discharge_records
       (snd (generate_final_auth_request env_down "C1" (discharge 60000) "H"
               "I" st_approved)) !! "C1" = Some (discharge 60000)
  /\ snd (generate_final_auth_request env_down "C1" (discharge 60000) "H" "I"
            st_approved) <> st_approved.
Proof.
  split; [reflexivity|]. split; [reflexivity|]. split; [reflexivity|].
  split; [reflexivity|].
  intros Heq. apply (f_equal (fun s => discharge_records s !! "C1")) in Heq.
  discriminate Heq.
Qed.

(** ** One call, one record *)

(** Every call moves the pre-authorization slot of every [case_id] along
    [pre_auth_step]. *)
Lemma exec_pre_auth_step (E : Env) (c : Call) (self : EnhancedTPAWithFinalAuth)
    (case_id : string) :
  pre_auth_step E case_id c (pre_authorizations self !! case_id)
    (pre_authorizations (exec E c self) !! case_id).
Proof.
  destruct c as [i pd cost | i q hb ib | i a | i dd hb ib | i q hb ib | i a];
    unfold exec, dispatch; run_method.
  - cbn. destruct (decide (i = case_id)) as [->|Hne].
    + rewrite lookup_insert_eq. constructor.
    + rewrite lookup_insert_ne by exact Hne. constructor.
      cbn. apply bool_decide_eq_false. exact Hne.
  - destruct (pre_authorizations self !! i) as [r|] eqn:Hr; cbn [fst snd];
      [|by constructor].
    destruct (generate_letter E _ _ _ _) as [html|]; cbn [fst snd];
      [|by constructor].
    cbn. destruct (decide (i = case_id)) as [->|Hne].
    + rewrite !lookup_alter_eq, Hr. cbn. apply pre_auth_queried.
    + rewrite !lookup_alter_ne by exact Hne. by constructor.
  - destruct (pre_authorizations self !! i) as [r|] eqn:Hr; cbn [fst snd];
      [|by constructor].
    destruct (fromisoformat E _) as [d|] eqn:Hd; cbn.
    + destruct (decide (i = case_id)) as [->|Hne].
      * rewrite !lookup_alter_eq, Hr. cbn.
        by apply pre_auth_approval_dated.
      * rewrite !lookup_alter_ne by exact Hne. by constructor.
    + destruct (decide (i = case_id)) as [->|Hne].
      * rewrite !lookup_alter_eq, Hr. cbn.
        by apply pre_auth_approval_undated.
      * rewrite !lookup_alter_ne by exact Hne. by constructor.
  - destruct (pre_authorizations self !! i), (cases self !! i) as [p|];
      cbn [fst snd]; try by constructor.
    destruct (negb (dict_truthy p)); cbn [fst snd]; [by constructor|].
    destruct (generate_letter E _ _ _ _); cbn; by constructor.
  - destruct (final_authorizations self !! i), (discharge_records self !! i);
      cbn [fst snd]; try by constructor.
    destruct (generate_letter E _ _ _ _); cbn; by constructor.
  - destruct (final_authorizations self !! i); cbn [fst snd];
      [|by constructor].
    destruct (fromisoformat E _); cbn [fst snd]; [|by constructor].
    destruct (analyze_final_gap E _ _ _); cbn; by constructor.
Qed.

(** Every call moves the final-authorization slot of every [case_id] along
    [final_auth_step]. *)
Lemma exec_final_auth_step (E : Env) (c : Call)
    (self : EnhancedTPAWithFinalAuth) (case_id : string) :
  final_auth_step E case_id c (final_authorizations self !! case_id)
    (final_authorizations (exec E c self) !! case_id).
Proof.
  destruct c as [i pd cost | i q hb ib | i a | i dd hb ib | i q hb ib | i a];
    unfold exec, dispatch; run_method.
  - cbn. by constructor.
  - destruct (pre_authorizations self !! i); cbn [fst snd];
      [|by constructor].
    destruct (generate_letter E _ _ _ _); cbn; by constructor.
  - destruct (pre_authorizations self !! i); cbn [fst snd];
      [|by constructor].
    destruct (fromisoformat E _); cbn; by constructor.
  - destruct (pre_authorizations self !! i), (cases self !! i) as [p|];
      cbn [fst snd]; try by constructor.
    destruct (negb (dict_truthy p)); cbn [fst snd];
      [by constructor|].
    destruct (generate_letter E _ _ _ _); cbn;
      [|by constructor].
    destruct (decide (i = case_id)) as [->|Hne].
    + rewrite lookup_insert_eq. apply final_auth_created.
    + rewrite lookup_insert_ne by exact Hne. constructor.
  - destruct (final_authorizations self !! i) as [r|] eqn:Hr,
      (discharge_records self !! i); cbn [fst snd]; try by constructor.
    destruct (generate_letter E _ _ _ _) as [html|]; cbn [fst snd];
      [|by constructor].
    cbn. destruct (decide (i = case_id)) as [->|Hne].
    + rewrite !lookup_alter_eq, Hr. cbn. apply final_auth_queried.
    + rewrite !lookup_alter_ne by exact Hne. by constructor.
  - destruct (final_authorizations self !! i) as [r|] eqn:Hr; cbn [fst snd];
      [|by constructor].
    destruct (fromisoformat E _) as [d|] eqn:Hd; cbn [fst snd].
    + assert (Hst : final_auth_step E case_id (RecordFinalAuthApproval i a)
                (final_authorizations self !! case_id)
                (alter (Final.set_deductions (default ∅ (ad_deductions a))) i
                  (alter (Final.set_approval_date (Some d)) i
                    (alter (Final.set_approval_number
                              (Some (ad_approval_number a))) i
                      (alter (Final.set_approved_amount
                                (Some (ad_approved_amount a))) i
                        (alter (Final.set_approval_status APPROVED) i
                           (final_authorizations self))))) !! case_id)).
      { destruct (decide (i = case_id)) as [->|Hne].
        - rewrite !lookup_alter_eq, Hr. cbn.
          by apply final_auth_approval_dated.
        - rewrite !lookup_alter_ne by exact Hne. by constructor. }
      destruct (analyze_final_gap E _ _ _); cbn; exact Hst.
    + cbn. destruct (decide (i = case_id)) as [->|Hne].
      * rewrite !lookup_alter_eq, Hr. cbn.
        by apply final_auth_approval_undated.
      * rewrite !lookup_alter_ne by exact Hne. by constructor.
Qed.

(** ** Invariants of the reachable states *)

Lemma pre_auth_step_inv (E : Env) (case_id : string) (c : Call)
    (o : option Pre.t) (r' : Pre.t) :
  pre_auth_step E case_id c o (Some r') ->
  (forall r, o = Some r -> pre_auth_inv r) ->
  pre_auth_inv r'.
Proof.
  intros Hstep Hinv.
  inversion Hstep; subst; [by apply Hinv|..]; unfold pre_auth_inv; cbn; eauto.
Qed.

Lemma final_auth_step_inv (E : Env) (case_id : string) (c : Call)
    (o : option Final.t) (r' : Final.t) :
  final_auth_step E case_id c o (Some r') ->
  (forall r, o = Some r -> final_auth_inv r) ->
  final_auth_inv r'.
Proof.
  intros Hstep Hinv.
  inversion Hstep; subst; [by apply Hinv|..]; unfold final_auth_inv; cbn; eauto.
Qed.

Lemma reachable_pre_auth_inv (self : EnhancedTPAWithFinalAuth) :
  reachable self ->
  forall case_id r, pre_authorizations self !! case_id = Some r ->
                    pre_auth_inv r.
Proof.
  induction 1 as [|E c self Hreach IH]; intros case_id r Hr.
  - cbn in Hr. rewrite lookup_empty in Hr. discriminate.
  - eapply pre_auth_step_inv; [|apply IH]. rewrite <- Hr.
    apply exec_pre_auth_step.
Qed.

Lemma reachable_final_auth_inv (self : EnhancedTPAWithFinalAuth) :
  reachable self ->
  forall case_id r, final_authorizations self !! case_id = Some r ->
                    final_auth_inv r.
Proof.
  induction 1 as [|E c self Hreach IH]; intros case_id r Hr.
  - cbn in Hr. rewrite lookup_empty in Hr. discriminate.
  - eapply final_auth_step_inv; [|apply IH]. rewrite <- Hr.
    apply exec_final_auth_step.
Qed.



(** The sample states are reachable. *)
Lemma reachable_st_approved : reachable st_approved.
Proof. repeat apply reachable_call. apply reachable_init. Qed.


Lemma reachable_st_final : reachable st_final.
Proof. apply reachable_call, reachable_st_approved. Qed.

(** ** Approved amount and status of a pre-authorization *)




(** ** Leaving the status Approved *)

(** C5, as the code has it. In a reachable state no record of either
    tracker has status Rejected or PartiallyApproved, since no method assigns
    them.  After any call a record whose status was Approved is still there
    and still Approved, with two exceptions: a query answered on that record
    leaves it QueryReplied, and a new request for the same [case_id]
    replaces it by a Pending record. *)
Theorem approved_status_transitions (E : Env) (c : Call)
    (self : EnhancedTPAWithFinalAuth) (case_id : string) :
  reachable self ->
  (forall r : Pre.t,
     pre_authorizations self !! case_id = Some r ->
     Pre.approval_status r <> REJECTED
     /\ Pre.approval_status r <> PARTIALLY_APPROVED
     /\ (Pre.approval_status r = APPROVED ->
         exists r' : Pre.t,
           pre_authorizations (exec E c self) !! case_id = Some r'
           /\ (Pre.approval_status r' = APPROVED
               \/ (queries_pre_auth case_id c = true
                   /\ Pre.approval_status r' = QUERY_REPLIED)
               \/ (creates_pre_auth case_id c = true
                   /\ Pre.approval_status r' = PENDING))))
  /\ (forall r : Final.t,
     final_authorizations self !! case_id = Some r ->
     Final.approval_status r <> REJECTED
     /\ Final.approval_status r <> PARTIALLY_APPROVED
     /\ (Final.approval_status r = APPROVED ->
         exists r' : Final.t,
           final_authorizations (exec E c self) !! case_id = Some r'
           /\ (Final.approval_status r' = APPROVED
               \/ (queries_final_auth case_id c = true
                   /\ Final.approval_status r' = QUERY_REPLIED)
               \/ (creates_final_auth case_id c = true
                   /\ Final.approval_status r' = PENDING)))).
Proof.
  intros Hreach. split; intros r Hr.
  - pose proof (reachable_pre_auth_inv self Hreach case_id r Hr) as Hinv.
    unfold pre_auth_inv in Hinv.
    split; [intros Hst; by rewrite Hst in Hinv|].
    split; [intros Hst; by rewrite Hst in Hinv|].
    intros Hst.
    pose proof (exec_pre_auth_step E c self case_id) as Hstep.
    rewrite Hr in Hstep. inversion Hstep; subst; eexists; (split; [done|]).
    + by left.
    + right; right. split; [apply bool_decide_eq_true_2|]; reflexivity.
    + right; left. split; [apply bool_decide_eq_true_2|]; reflexivity.
    + by left.
    + by left.
  - pose proof (reachable_final_auth_inv self Hreach case_id r Hr) as Hinv.
    unfold final_auth_inv in Hinv.
    split; [intros Hst; by rewrite Hst in Hinv|].
    split; [intros Hst; by rewrite Hst in Hinv|].
    intros Hst.
    pose proof (exec_final_auth_step E c self case_id) as Hstep.
    rewrite Hr in Hstep. inversion Hstep; subst; eexists; (split; [done|]).
    + by left.
    + right; right. split; [apply bool_decide_eq_true_2|]; reflexivity.
    + right; left. split; [apply bool_decide_eq_true_2|]; reflexivity.
    + by left.
    + by left.
Qed.

(** The approved case C1 when its final authorization is requested. *)
Lemma approved_status_transitions_witness :
  reachable st_approved
  /\ exists r' : Pre.t,
       pre_authorizations st_final !! "C1" = Some r'
       /\ Pre.approval_status r' = APPROVED.
Proof.
  split; [exact reachable_st_approved|].
  destruct (approved_status_transitions env_up
              (GenerateFinalAuthRequest "C1" (discharge 60000) "H" "I")
              st_approved "C1" reachable_st_approved) as [Hpre _].
  destruct (Hpre _ eq_refl) as (_ & _ & Hkeep).
  destruct (Hkeep eq_refl) as (r' & Hr' & [Hst | [[Hq _] | [Hc _]]]).
  - exists r'. split; [exact Hr' | exact Hst].
  - discriminate Hq.
  - discriminate Hc.
Defined.

(** C5 as stated fails: a query answered on the approved case C1 moves its
    status from Approved to QueryReplied. *)
Lemma approved_then_queried_is_query_replied :
  reachable st_approved
  /\ (Pre.approval_status <$> pre_authorizations st_approved !! "C1")
     = Some APPROVED
  /\ (Pre.approval_status <$>
        pre_authorizations
          (exec env_up (HandlePreauthQuery "C1" "Why surgery?" "H" "I")
             st_approved) !! "C1")
     = Some QUERY_REPLIED.
Proof.
  split; [exact reachable_st_approved|]. split; reflexivity.
Qed.

(** ** The approval fields of a pre-authorization *)




(** ** Query sequences *)




(** ** The worked scenarios *)

(** Estimated cost 50000, approved for 45000, final bill 60000: 15000 more
    is requested. *)
Example scenario_additional_requested :
  fst (generate_final_auth_request env_up "C1" (discharge 60000) "H" "I"
         st_approved)
  = Returned (final_auth_generated "<pre>letter</pre>" 15000).
Proof. reflexivity. Qed.

(** Final approval for 50000: a gap of 10000, that is 16.67%, and no
    escalation. *)
Example scenario_gap_below_threshold :
  exists g : GapAnalysis,
    fst (record_final_auth_approval env_up "C1" (approval 50000 "FA-1")
           st_final) = Returned (final_auth_approved g)
    /\ gap_amount g = 10000%Q
    /\ (gap_percentage g == 50 # 3)%Q
    /\ requires_escalation g = false.
Proof. eexists. repeat split. Qed.

(** Final approval for 40000: a gap of 33.33%, escalation required. *)
Example scenario_gap_above_threshold :
  exists g : GapAnalysis,
    fst (record_final_auth_approval env_up "C1" (approval 40000 "FA-1")
           st_final) = Returned (final_auth_approved g)
    /\ (gap_percentage g == 100 # 3)%Q
    /\ requires_escalation g = true.
Proof. eexists. repeat split. Qed.

(** A final authorization requested for a case that was never registered. *)
Example scenario_final_without_pre_auth :
  generate_final_auth_request env_up "C2" (discharge 60000) "H" "I" st_approved
  = (Returned (error "Pre-auth or patient data not found"), st_approved).
Proof. reflexivity. Qed.

(** * Further properties of the agent *)

(** ** Shape of the state after a call *)

(** A call either leaves [cases] alone or is a [send_preauth_request]
    storing its patient data. *)
Lemma exec_cases (E : Env) (c : Call) (self : EnhancedTPAWithFinalAuth) :
  cases (exec E c self) = cases self
  \/ exists i pd cost,
       c = SendPreauthRequest i pd cost
       /\ cases (exec E c self) = <[i := pd]> (cases self).
Proof.
  destruct c as [i pd cost | i q hb ib | i a | i dd hb ib | i q hb ib | i a];
    unfold exec, dispatch; run_method.
  - right. by exists i, pd, cost.
  - left. destruct (pre_authorizations self !! i); cbn [fst snd]; [|done].
    by destruct (generate_letter E _ _ _ _).
  - left. destruct (pre_authorizations self !! i); cbn [fst snd]; [|done].
    by destruct (fromisoformat E _).
  - left. destruct (pre_authorizations self !! i), (cases self !! i) as [p|];
      cbn [fst snd]; try done.
    destruct (negb (dict_truthy p)); cbn [fst snd]; [done|].
    by destruct (generate_letter E _ _ _ _).
  - left. destruct (final_authorizations self !! i),
      (discharge_records self !! i); cbn [fst snd]; try done.
    by destruct (generate_letter E _ _ _ _).
  - left. destruct (final_authorizations self !! i); cbn [fst snd]; [|done].
    destruct (fromisoformat E _); cbn [fst snd]; [|done].
    by destruct (analyze_final_gap E _ _ _).
Qed.

(** A call either leaves [discharge_records] alone or is a
    [generate_final_auth_request] that passed its guard and stored its
    discharge data. *)
Lemma exec_discharge_records (E : Env) (c : Call)
    (self : EnhancedTPAWithFinalAuth) :
  discharge_records (exec E c self) = discharge_records self
  \/ exists i dd hb ib,
       c = GenerateFinalAuthRequest i dd hb ib
       /\ is_Some (pre_authorizations self !! i)
       /\ is_Some (cases self !! i)
       /\ discharge_records (exec E c self)
          = <[i := dd]> (discharge_records self).
Proof.
  destruct c as [i pd cost | i q hb ib | i a | i dd hb ib | i q hb ib | i a];
    unfold exec, dispatch; run_method.
  - by left.
  - left. destruct (pre_authorizations self !! i); cbn [fst snd]; [|done].
    by destruct (generate_letter E _ _ _ _).
  - left. destruct (pre_authorizations self !! i); cbn [fst snd]; [|done].
    by destruct (fromisoformat E _).
  - destruct (pre_authorizations self !! i) as [r|] eqn:Hr,
      (cases self !! i) as [p|] eqn:Hp; cbn [fst snd]; try by left.
    destruct (negb (dict_truthy p)); cbn [fst snd]; [by left|].
    right. exists i, dd, hb, ib. split; [done|]. split; [done|].
    split; [done|]. by destruct (generate_letter E _ _ _ _).
  - left. destruct (final_authorizations self !! i),
      (discharge_records self !! i); cbn [fst snd]; try done.
    by destruct (generate_letter E _ _ _ _).
  - left. destruct (final_authorizations self !! i); cbn [fst snd]; [|done].
    destruct (fromisoformat E _); cbn [fst snd]; [|done].
    by destruct (analyze_final_gap E _ _ _).
Qed.

(** The slot of another case is not what a call works on. *)
Lemma pre_auth_step_other (E : Env) (key : string) (c : Call)
    (o o' : option Pre.t) :
  pre_auth_step E key c o o' -> key <> call_case_id c -> o' = o.
Proof. intros Hstep Hne. inversion Hstep; subst; cbn in Hne; congruence. Qed.

Lemma final_auth_step_other (E : Env) (key : string) (c : Call)
    (o o' : option Final.t) :
  final_auth_step E key c o o' -> key <> call_case_id c -> o' = o.
Proof. intros Hstep Hne. inversion Hstep; subst; cbn in Hne; congruence. Qed.

(** ** One case at a time *)

(** X1. A call reads and writes the records of its own [case_id] only: under
    every other key the four dictionaries are as before. *)
Theorem calls_touch_one_case (E : Env) (c : Call)
    (self : EnhancedTPAWithFinalAuth) (other : string) :
  other <> call_case_id c ->
  cases (exec E c self) !! other = cases self !! other
  /\ pre_authorizations (exec E c self) !! other
     = pre_authorizations self !! other
  /\ final_authorizations (exec E c self) !! other
     = final_authorizations self !! other
  /\ discharge_records (exec E c self) !! other
     = discharge_records self !! other.
Proof.
  intros Hne. split; [|split; [|split]].
  - destruct (exec_cases E c self) as [-> | (i & pd & cost & -> & ->)];
      [done|]. apply lookup_insert_ne. cbn in Hne. congruence.
  - eapply pre_auth_step_other; [apply exec_pre_auth_step | exact Hne].
  - eapply final_auth_step_other; [apply exec_final_auth_step | exact Hne].
  - destruct (exec_discharge_records E c self)
      as [-> | (i & dd & hb & ib & -> & _ & _ & ->)]; [done|].
    apply lookup_insert_ne. cbn in Hne. congruence.
Qed.

Lemma calls_touch_one_case_witness :
  "C2" <> call_case_id (RecordPreauthApproval "C1" (approval 45000 "PA-1"))
  /\ pre_authorizations st_approved !! "C2" = None.
Proof.
  split; [discriminate|].
  destruct (calls_touch_one_case env_up
              (RecordPreauthApproval "C1" (approval 45000 "PA-1"))
              st_requested "C2") as (_ & Hpre & _); [discriminate|].
  exact Hpre.
Defined.

(** ** Nothing is deleted *)

Lemma exec_keeps_keys (E : Env) (c : Call)
    (self : EnhancedTPAWithFinalAuth) (case_id : string) :
  (is_Some (cases self !! case_id) ->
     is_Some (cases (exec E c self) !! case_id))
  /\ (is_Some (pre_authorizations self !! case_id) ->
        is_Some (pre_authorizations (exec E c self) !! case_id))
  /\ (is_Some (final_authorizations self !! case_id) ->
        is_Some (final_authorizations (exec E c self) !! case_id))
  /\ (is_Some (discharge_records self !! case_id) ->
        is_Some (discharge_records (exec E c self) !! case_id)).
Proof.
  split; [|split; [|split]].
  - destruct (exec_cases E c self) as [-> | (i & pd & cost & -> & ->)];
      [done|]. rewrite lookup_insert_is_Some'. by right.
  - intros [r Hr]. pose proof (exec_pre_auth_step E c self case_id) as Hstep.
    rewrite Hr in Hstep. inversion Hstep; by eexists.
  - intros [r Hr]. pose proof (exec_final_auth_step E c self case_id) as Hstep.
    rewrite Hr in Hstep. inversion Hstep; by eexists.
  - destruct (exec_discharge_records E c self)
      as [-> | (i & dd & hb & ib & -> & _ & _ & ->)]; [done|].
    rewrite lookup_insert_is_Some'. by right.
Qed.

(** X2. No call removes an entry: a key present in one of the four
    dictionaries before a call is present in it afterwards. *)
Theorem records_never_removed (E : Env) (c : Call)
    (self : EnhancedTPAWithFinalAuth) (case_id : string) :
  (is_Some (cases self !! case_id) ->
     is_Some (cases (exec E c self) !! case_id))
  /\ (is_Some (pre_authorizations self !! case_id) ->
        is_Some (pre_authorizations (exec E c self) !! case_id))
  /\ (is_Some (final_authorizations self !! case_id) ->
        is_Some (final_authorizations (exec E c self) !! case_id))
  /\ (is_Some (discharge_records self !! case_id) ->
        is_Some (discharge_records (exec E c self) !! case_id)).
Proof. exact (exec_keeps_keys E c self case_id). Qed.

Lemma records_never_removed_witness :
  is_Some (pre_authorizations st_approved !! "C1")
  /\ is_Some (pre_authorizations st_final !! "C1").
Proof.
  assert (Hbefore : is_Some (pre_authorizations st_approved !! "C1"))
    by (eexists; reflexivity).
  split; [exact Hbefore|].
  destruct (records_never_removed env_up
              (GenerateFinalAuthRequest "C1" (discharge 60000) "H" "I")
              st_approved "C1") as (_ & Hpre & _).
  exact (Hpre Hbefore).
Defined.

(** ** Error returns *)




(** X4. A case registered with an empty patient dictionary can never get a
    final authorization: right after such a [send_preauth_request], a
    [generate_final_auth_request] for the same case answers "not found" and
    changes nothing, although the pre-authorization record exists. *)
Theorem empty_patient_data_blocks_final_request (E E' : Env)
    (self : EnhancedTPAWithFinalAuth) (case_id : string) (estimated_cost : Q)
    (discharge_data : DischargeData) (hospital_block insurer_block : string) :
  let registered :=
    snd (send_preauth_request E case_id ∅ estimated_cost self) in
  is_Some (pre_authorizations registered !! case_id)
  /\ generate_final_auth_request E' case_id discharge_data hospital_block
       insurer_block registered
     = (Returned (error "Pre-auth or patient data not found"), registered).
Proof.
  cbn zeta. run_method. cbn.
  rewrite !lookup_insert_eq. cbn. split; [by eexists | reflexivity].
Qed.

(** ** Well-formed records in reachable states *)

Lemma pre_auth_step_wf (E : Env) (key : string) (c : Call)
    (o : option Pre.t) (r' : Pre.t) :
  pre_auth_step E key c o (Some r') ->
  (forall r, o = Some r -> pre_auth_wf key r) ->
  pre_auth_wf key r'.
Proof.
  intros Hstep Hwf.
  inversion Hstep; subst; [by apply Hwf|..].
  - repeat split; cbn; try done; intros [? ?]; done.
  - destruct (Hwf r eq_refl) as (Hkey & Hrej & Hnum & Hdate & _).
    repeat split; cbn; try done; apply Hnum.
  - destruct (Hwf r eq_refl) as (Hkey & Hrej & _).
    repeat split; cbn; try done; by eexists.
  - destruct (Hwf r eq_refl) as (Hkey & Hrej & _).
    repeat split; cbn; try done; by eexists.
Qed.

Lemma final_auth_step_wf (E : Env) (key : string) (c : Call)
    (o : option Final.t) (r' : Final.t) :
  final_auth_step E key c o (Some r') ->
  (forall r, o = Some r -> final_auth_wf key r) ->
  final_auth_wf key r'.
Proof.
  intros Hstep Hwf.
  inversion Hstep; subst; [by apply Hwf|..].
  - repeat split; cbn; try done; try (intros [? ?]; done).
    apply py_max_Qmax.
  - destruct (Hwf r eq_refl)
      as (Hkey & Hrej & Hdoc & Hadd & Hnum & Hdate & _ & Hamt & _).
    repeat split; cbn; try done; try apply Hnum. by right.
  - destruct (Hwf r eq_refl) as (Hkey & Hrej & Hdoc & Hadd & _).
    repeat split; cbn; try done; try by eexists. by left.
  - destruct (Hwf r eq_refl) as (Hkey & Hrej & Hdoc & Hadd & _).
    repeat split; cbn; try done; try by eexists. by left.
Qed.

Lemma reachable_pre_auth_wf (self : EnhancedTPAWithFinalAuth) :
  reachable self ->
  forall key r, pre_authorizations self !! key = Some r -> pre_auth_wf key r.
Proof.
  induction 1 as [|E c self Hreach IH]; intros key r Hr.
  - cbn in Hr. rewrite lookup_empty in Hr. discriminate.
  - eapply pre_auth_step_wf; [|apply IH]. rewrite <- Hr.
    apply exec_pre_auth_step.
Qed.

Lemma reachable_final_auth_wf (self : EnhancedTPAWithFinalAuth) :
  reachable self ->
  forall key r, final_authorizations self !! key = Some r ->
                final_auth_wf key r.
Proof.
  induction 1 as [|E c self Hreach IH]; intros key r Hr.
  - cbn in Hr. rewrite lookup_empty in Hr. discriminate.
  - eapply final_auth_step_wf; [|apply IH]. rewrite <- Hr.
    apply exec_final_auth_step.
Qed.

(** X5. In every reachable state a record of either tracker is stored under
    its own [case_id], and its [rejection_reason] is [None]: no method ever
    assigns a rejection reason. *)
Theorem records_keyed_and_never_rejected (self : EnhancedTPAWithFinalAuth)
    (key : string) :
  reachable self ->
  (forall r : Pre.t,
     pre_authorizations self !! key = Some r ->
     Pre.case_id r = key /\ Pre.rejection_reason r = None)
  /\ (forall r : Final.t,
     final_authorizations self !! key = Some r ->
     Final.case_id r = key /\ Final.rejection_reason r = None).
Proof.
  intros Hreach. split; intros r Hr.
  - destruct (reachable_pre_auth_wf self Hreach key r Hr) as (? & ? & _).
    by split.
  - destruct (reachable_final_auth_wf self Hreach key r Hr) as (? & ? & _).
    by split.
Qed.

Lemma records_keyed_and_never_rejected_witness :
  reachable st_final
  /\ Final.case_id final_C1 = "C1" /\ Final.rejection_reason final_C1 = None.
Proof.
  split; [exact reachable_st_final|].
  destruct (records_keyed_and_never_rejected st_final "C1" reachable_st_final)
    as (_ & Hfinal).
  exact (Hfinal final_C1 eq_refl).
Defined.







(** ** Records of a case come in order *)

(** A final authorization appears only through a request that found the
    pre-authorization and the patient data and stored the discharge data. *)
Lemma final_auth_appears (E : Env) (c : Call)
    (self : EnhancedTPAWithFinalAuth) (key : string) :
  final_authorizations self !! key = None ->
  is_Some (final_authorizations (exec E c self) !! key) ->
  is_Some (pre_authorizations self !! key)
  /\ is_Some (cases self !! key)
  /\ is_Some (discharge_records (exec E c self) !! key).
Proof.
  intros Hnone.
  destruct c as [i pd cost | i q hb ib | i a | i dd hb ib | i q hb ib | i a];
    unfold exec, dispatch; run_method.
  - cbn. rewrite Hnone. by intros [? ?].
  - destruct (pre_authorizations self !! i); cbn [fst snd];
      [|rewrite Hnone; by intros [? ?]].
    destruct (generate_letter E _ _ _ _); cbn; rewrite Hnone; by intros [? ?].
  - destruct (pre_authorizations self !! i); cbn [fst snd];
      [|rewrite Hnone; by intros [? ?]].
    destruct (fromisoformat E _); cbn; rewrite Hnone; by intros [? ?].
  - destruct (pre_authorizations self !! i) as [r|] eqn:Hr,
      (cases self !! i) as [p|] eqn:Hp; cbn [fst snd];
      try (rewrite Hnone; by intros [? ?]).
    destruct (negb (dict_truthy p)); cbn [fst snd];
      [rewrite Hnone; by intros [? ?]|].
    destruct (generate_letter E _ _ _ _); cbn;
      [|rewrite Hnone; by intros [? ?]].
    destruct (decide (i = key)) as [<-|Hne].
    + intros _. rewrite Hr, Hp, lookup_insert_eq. by repeat split.
    + rewrite lookup_insert_ne by exact Hne. rewrite Hnone. by intros [? ?].
  - destruct (final_authorizations self !! i),
      (discharge_records self !! i); cbn [fst snd];
      try (rewrite Hnone; by intros [? ?]).
    destruct (generate_letter E _ _ _ _); cbn;
      [|rewrite Hnone; by intros [? ?]].
    rewrite !lookup_alter_is_Some, Hnone. by intros [? ?].
  - destruct (final_authorizations self !! i); cbn [fst snd];
      [|rewrite Hnone; by intros [? ?]].
    destruct (fromisoformat E _); cbn [fst snd].
    + destruct (analyze_final_gap E _ _ _); cbn;
        rewrite !lookup_alter_is_Some, Hnone; by intros [? ?].
    + cbn. rewrite !lookup_alter_is_Some, Hnone. by intros [? ?].
Qed.

Lemma exec_linked (E : Env) (c : Call) (self : EnhancedTPAWithFinalAuth) :
  linked self -> linked (exec E c self).
Proof.
  intros Hlinked key. destruct (Hlinked key) as [Hpre Hfinal].
  destruct (exec_keeps_keys E c self key) as (Rc & Rp & Rf & Rd).
  split.
  - intros [r' Hr'].
    pose proof (exec_pre_auth_step E c self key) as Hstep.
    rewrite Hr' in Hstep. inversion Hstep; subst.
    + apply Rc, Hpre. by eexists.
    + cbn. rewrite lookup_insert_eq. by eexists.
    + apply Rc, Hpre. by eexists.
    + apply Rc, Hpre. by eexists.
    + apply Rc, Hpre. by eexists.
  - intros Hsome.
    destruct (final_authorizations self !! key) as [r|] eqn:Hr.
    + destruct Hfinal as (Hp & Hc & Hd); [by eexists|]. auto.
    + destruct (final_auth_appears E c self key Hr Hsome) as (Hp & Hc & Hd).
      auto.
Qed.

Lemma reachable_linked (self : EnhancedTPAWithFinalAuth) :
  reachable self -> linked self.
Proof.
  induction 1 as [|E c self Hreach IH].
  - intros key. cbn. rewrite !lookup_empty. split; by intros [? ?].
  - by apply exec_linked.
Qed.

(** X9. In every reachable state a case with a pre-authorization has its
    patient data, and a case with a final authorization has a
    pre-authorization, its patient data and a discharge record. *)
Theorem records_come_in_order (self : EnhancedTPAWithFinalAuth)
    (case_id : string) :
  reachable self ->
  (is_Some (pre_authorizations self !! case_id) ->
     is_Some (cases self !! case_id))
  /\ (is_Some (final_authorizations self !! case_id) ->
        is_Some (pre_authorizations self !! case_id)
        /\ is_Some (cases self !! case_id)
        /\ is_Some (discharge_records self !! case_id)).
Proof. intros Hreach. exact (reachable_linked self Hreach case_id). Qed.

Lemma records_come_in_order_witness :
  reachable st_final
  /\ is_Some (final_authorizations st_final !! "C1")
  /\ is_Some (pre_authorizations st_final !! "C1")
  /\ is_Some (discharge_records st_final !! "C1").
Proof.
  assert (Hfinal : is_Some (final_authorizations st_final !! "C1"))
    by (eexists; reflexivity).
  split; [exact reachable_st_final|]. split; [exact Hfinal|].
  destruct (records_come_in_order st_final "C1" reachable_st_final)
    as (_ & Horder).
  destruct (Horder Hfinal) as (Hpre & _ & Hdischarge).
  split; [exact Hpre | exact Hdischarge].
Defined.

(** ** Fields fixed at creation *)

(** X10. The fields a record is created with stay as they are until the
    record is created anew: a call other than [send_preauth_request] for the
    same case keeps a pre-authorization's [case_id], [request_date] and
    [requested_amount], and a call other than [generate_final_auth_request]
    for the same case keeps a final authorization's [case_id],
    [request_date], [final_bill_amount], [pre_auth_approved],
    [additional_amount_requested] and [documents_submitted].  In particular
    [pre_auth_approved] is a snapshot: a later pre-authorization approval
    does not reach it. *)
Theorem creation_fields_frame (E : Env) (c : Call)
    (self : EnhancedTPAWithFinalAuth) (key : string) :
  (forall r : Pre.t,
     pre_authorizations self !! key = Some r ->
     creates_pre_auth key c = false ->
     exists r' : Pre.t,
       pre_authorizations (exec E c self) !! key = Some r'
       /\ Pre.case_id r' = Pre.case_id r
       /\ Pre.request_date r' = Pre.request_date r
       /\ Pre.requested_amount r' = Pre.requested_amount r)
  /\ (forall r : Final.t,
     final_authorizations self !! key = Some r ->
     creates_final_auth key c = false ->
     exists r' : Final.t,
       final_authorizations (exec E c self) !! key = Some r'
       /\ Final.case_id r' = Final.case_id r
       /\ Final.request_date r' = Final.request_date r
       /\ Final.final_bill_amount r' = Final.final_bill_amount r
       /\ Final.pre_auth_approved r' = Final.pre_auth_approved r
       /\ Final.additional_amount_requested r'
          = Final.additional_amount_requested r
       /\ Final.documents_submitted r' = Final.documents_submitted r).
Proof.
  split; intros r Hr Hcreate.
  - pose proof (exec_pre_auth_step E c self key) as Hstep.
    rewrite Hr in Hstep. inversion Hstep; subst.
    + by exists r.
    + cbn in Hcreate. by rewrite bool_decide_eq_true_2 in Hcreate.
    + eexists. by split.
    + eexists. by split.
    + eexists. by split.
  - pose proof (exec_final_auth_step E c self key) as Hstep.
    rewrite Hr in Hstep. inversion Hstep; subst.
    + by exists r.
    + cbn in Hcreate. by rewrite bool_decide_eq_true_2 in Hcreate.
    + eexists. by split.
    + eexists. by split.
    + eexists. by split.
Qed.

Lemma creation_fields_frame_witness :
  final_authorizations st_final !! "C1" = Some final_C1
  /\ exists r' : Final.t,
       final_authorizations
         (exec env_up (RecordPreauthApproval "C1" (approval 50000 "PA-2"))
            st_final) !! "C1" = Some r'
       /\ Final.pre_auth_approved r' = 45000%Q.
Proof.
  split; [reflexivity|].
  destruct (creation_fields_frame env_up
              (RecordPreauthApproval "C1" (approval 50000 "PA-2"))
              st_final "C1") as (_ & Hfinal).
  destruct (Hfinal final_C1 eq_refl eq_refl)
    as (r' & Hr' & _ & _ & _ & Hsnapshot & _).
  exists r'. split; [exact Hr' | exact Hsnapshot].
Defined.

(** ** What an approval writes *)

(** X11. [record_preauth_approval] on an existing record, with a date that
    parses, returns the approved amount it was given and leaves the record
    Approved with the given amount, number and parsed date; the request
    fields and the queries of the record and the three other dictionaries
    are untouched.  The amount is not checked: any number, above the
    requested amount or negative, is stored. *)
Theorem record_preauth_approval_effect (E : Env)
    (self : EnhancedTPAWithFinalAuth) (case_id : string)
    (approval_data : ApprovalData) (r : Pre.t) (d : datetime) :
  pre_authorizations self !! case_id = Some r ->
  fromisoformat E (ad_approval_date approval_data) = Some d ->
  let result := record_preauth_approval E case_id approval_data self in
  fst result
    = Returned (pre_auth_approved (Some (ad_approved_amount approval_data)))
  /\ pre_authorizations (snd result) !! case_id
     = Some (Pre.mk (Pre.case_id r) (Pre.request_date r)
               (Pre.requested_amount r) APPROVED
               (Some (ad_approved_amount approval_data))
               (Some (ad_approval_number approval_data)) (Some d)
               (Pre.queries r) (Pre.rejection_reason r))
  /\ cases (snd result) = cases self
  /\ final_authorizations (snd result) = final_authorizations self
  /\ discharge_records (snd result) = discharge_records self.
Proof.
  intros Hr Hd. cbn zeta. run_method. rewrite Hr. cbn [fst snd].
  rewrite Hd. cbn. rewrite !lookup_alter_eq, Hr. cbn. by repeat split.
Qed.

Lemma record_preauth_approval_effect_witness :
  is_Some (pre_authorizations st_requested !! "C1")
  /\ fromisoformat env_up (ad_approval_date (approval 45000 "PA-1")) = Some 0%Z
  /\ fst (record_preauth_approval env_up "C1" (approval 45000 "PA-1")
            st_requested)
     = Returned (pre_auth_approved (Some 45000%Q)).
Proof.
  split; [eexists; reflexivity|]. split; [reflexivity|].
  destruct (record_preauth_approval_effect env_up st_requested "C1"
              (approval 45000 "PA-1") _ 0%Z eq_refl eq_refl) as (Hret & _).
  exact Hret.
Defined.

(** X12. When the approval date does not parse, [record_preauth_approval]
    raises [ValueError] after it has already written: the record is left
    Approved with the new amount and number, and with the approval date it
    had before. *)
Theorem record_preauth_approval_bad_date (E : Env)
    (self : EnhancedTPAWithFinalAuth) (case_id : string)
    (approval_data : ApprovalData) (r : Pre.t) :
  pre_authorizations self !! case_id = Some r ->
  fromisoformat E (ad_approval_date approval_data) = None ->
  let result := record_preauth_approval E case_id approval_data self in
  fst result = Raised ValueError
  /\ pre_authorizations (snd result) !! case_id
     = Some (Pre.mk (Pre.case_id r) (Pre.request_date r)
               (Pre.requested_amount r) APPROVED
               (Some (ad_approved_amount approval_data))
               (Some (ad_approval_number approval_data))
               (Pre.approval_date r)
               (Pre.queries r) (Pre.rejection_reason r)).
Proof.
  intros Hr Hd. cbn zeta. run_method. rewrite Hr. cbn [fst snd].
  rewrite Hd. cbn. rewrite !lookup_alter_eq, Hr. cbn. by split.
Qed.

Lemma record_preauth_approval_bad_date_witness :
  is_Some (pre_authorizations st_requested !! "C1")
  /\ fromisoformat env_up "" = None
  /\ fst (record_preauth_approval env_up "C1"
            {| ad_approved_amount := 45000; ad_approval_number := "PA-1";
               ad_approval_date := ""; ad_deductions := None |}
            st_requested)
     = Raised ValueError.
Proof.
  split; [eexists; reflexivity|]. split; [reflexivity|].
  destruct (record_preauth_approval_bad_date env_up st_requested "C1"
              {| ad_approved_amount := 45000; ad_approval_number := "PA-1";
                 ad_approval_date := ""; ad_deductions := None |}
              _ eq_refl eq_refl) as (Hret & _).
  exact Hret.
Defined.

(** X13. [record_final_auth_approval] on an existing record, with a date
    that parses, leaves the record Approved with the given amount, number,
    parsed date and deductions (no deductions when the key is absent),
    whether or not the gap analyzer then answers: when the analyzer fails
    the call raises with the approval already recorded. *)
Theorem record_final_auth_approval_effect (E : Env)
    (self : EnhancedTPAWithFinalAuth) (case_id : string)
    (approval_data : ApprovalData) (r : Final.t) (d : datetime) :
  final_authorizations self !! case_id = Some r ->
  fromisoformat E (ad_approval_date approval_data) = Some d ->
  let result := record_final_auth_approval E case_id approval_data self in
  final_authorizations (snd result) !! case_id
    = Some (Final.mk (Final.case_id r) (Final.request_date r)
              (Final.final_bill_amount r) (Final.pre_auth_approved r)
              (Final.additional_amount_requested r) APPROVED
              (Some (ad_approved_amount approval_data))
              (Some (ad_approval_number approval_data)) (Some d)
              (Final.queries r) (default ∅ (ad_deductions approval_data))
              (Final.rejection_reason r) (Final.documents_submitted r))
  /\ (analyze_final_gap E (Final.final_bill_amount r)
        (ad_approved_amount approval_data)
        (default ∅ (ad_deductions approval_data)) = None ->
      fst result = Raised OpenAIError)
  /\ cases (snd result) = cases self
  /\ pre_authorizations (snd result) = pre_authorizations self
  /\ discharge_records (snd result) = discharge_records self.
Proof.
  intros Hr Hd. cbn zeta. run_method. rewrite Hr. cbn [fst snd].
  rewrite Hd. cbn [fst snd].
  destruct (analyze_final_gap E _ _ _); cbn;
    rewrite !lookup_alter_eq, Hr; cbn; by repeat split.
Qed.

Lemma record_final_auth_approval_effect_witness :
  final_authorizations st_final !! "C1" = Some final_C1
  /\ analyze_final_gap env_down 60000 50000 ∅ = None
  /\ fst (record_final_auth_approval env_down "C1" (approval 50000 "FA-1")
            st_final) = Raised OpenAIError
  /\ (Final.approval_status <$>
        final_authorizations
          (snd (record_final_auth_approval env_down "C1"
                  (approval 50000 "FA-1") st_final)) !! "C1")
     = Some APPROVED.
Proof.
  split; [reflexivity|]. split; [reflexivity|].
  destruct (record_final_auth_approval_effect env_down st_final "C1"
              (approval 50000 "FA-1") final_C1 0%Z eq_refl eq_refl)
    as (Hrec & Hraise & _).
  split; [exact (Hraise eq_refl)|].
  rewrite Hrec. reflexivity.
Defined.

(** X14. When the approval date does not parse,
    [record_final_auth_approval] raises [ValueError] with the record already
    Approved and carrying the new amount and number, while its approval date
    and deductions are the previous ones. *)
Theorem record_final_auth_approval_bad_date (E : Env)
    (self : EnhancedTPAWithFinalAuth) (case_id : string)
    (approval_data : ApprovalData) (r : Final.t) :
  final_authorizations self !! case_id = Some r ->
  fromisoformat E (ad_approval_date approval_data) = None ->
  let result := record_final_auth_approval E case_id approval_data self in
  fst result = Raised ValueError
  /\ final_authorizations (snd result) !! case_id
     = Some (Final.mk (Final.case_id r) (Final.request_date r)
               (Final.final_bill_amount r) (Final.pre_auth_approved r)
               (Final.additional_amount_requested r) APPROVED
               (Some (ad_approved_amount approval_data))
               (Some (ad_approval_number approval_data))
               (Final.approval_date r) (Final.queries r) (Final.deductions r)
               (Final.rejection_reason r) (Final.documents_submitted r)).
Proof.
  intros Hr Hd. cbn zeta. run_method. rewrite Hr. cbn [fst snd].
  rewrite Hd. cbn. rewrite !lookup_alter_eq, Hr. cbn. by split.
Qed.

Lemma record_final_auth_approval_bad_date_witness :
  final_authorizations st_final !! "C1" = Some final_C1
  /\ fromisoformat env_up "" = None
  /\ fst (record_final_auth_approval env_up "C1"
            {| ad_approved_amount := 50000; ad_approval_number := "FA-1";
               ad_approval_date := ""; ad_deductions := None |}
            st_final)
     = Raised ValueError.
Proof.
  split; [reflexivity|]. split; [reflexivity|].
  destruct (record_final_auth_approval_bad_date env_up st_final "C1"
              {| ad_approved_amount := 50000; ad_approval_number := "FA-1";
                 ad_approval_date := ""; ad_deductions := None |}
              final_C1 eq_refl eq_refl) as (Hret & _).
  exact Hret.
Defined.

(** ** Requesting a final authorization again *)

(** X15. A successful [generate_final_auth_request] for a case that already
    has a final authorization replaces it: whatever approval, deductions and
    queries the old record held, the record now stored is Pending with no
    approval fields, no queries and no deductions, computed from the new
    bill, and the discharge record is the new discharge data. *)
Theorem generate_final_auth_request_overwrites (E : Env)
    (self : EnhancedTPAWithFinalAuth) (case_id : string)
    (discharge_data : DischargeData) (hospital_block insurer_block : string)
    (old : Final.t) (html : string) (additional : Q) :
  final_authorizations self !! case_id = Some old ->
  let result :=
    generate_final_auth_request E case_id discharge_data hospital_block
      insurer_block self in
  fst result = Returned (final_auth_generated html additional) ->
  exists pre_auth_amount : Q,
    final_authorizations (snd result) !! case_id
    = Some (Final.mk case_id (now E) (final_bill_amount discharge_data)
              pre_auth_amount additional PENDING None None None [] ∅ None
              ["Discharge Summary"; "Final Bill (itemized)";
               "Investigation Reports"; "Pharmacy Bills"; "OT Notes";
               "IPD Charts"])
    /\ discharge_records (snd result) !! case_id = Some discharge_data.
Proof.
  intros _. cbn zeta. run_method.
  destruct (pre_authorizations self !! case_id) as [pre_auth|];
    [|discriminate].
  destruct (cases self !! case_id) as [patient|]; [|discriminate].
  destruct (negb (dict_truthy patient)); [discriminate|]. cbn [fst snd].
  destruct (generate_letter E _ _ _ _); [|discriminate].
  cbn. intros [= -> <-]. eexists. rewrite !lookup_insert_eq. by split.
Qed.

Lemma generate_final_auth_request_overwrites_witness :
  (Final.approval_status <$> final_authorizations st_final_approved !! "C1")
    = Some APPROVED
  /\ (Final.approval_status <$>
        final_authorizations
          (snd (generate_final_auth_request env_up "C1" (discharge 70000)
                  "H" "I" st_final_approved)) !! "C1")
     = Some PENDING.
Proof.
  split; [reflexivity|].
  destruct (generate_final_auth_request_overwrites env_up st_final_approved
              "C1" (discharge 70000) "H" "I" _ "<pre>letter</pre>" 25000
              eq_refl eq_refl) as (amount & Hrec & _).
  rewrite Hrec. reflexivity.
Defined.

(** ** The escalation threshold in amounts *)



(** ** Rounds of queries *)

(** X17. Queries answered one after the other on an existing
    pre-authorization are all kept, in the order they were asked: after the
    whole list the record's [queries] are the old ones followed by one entry
    per query, each with its own letter, and the status is QueryReplied. *)
Theorem handle_preauth_queries_appends_in_order (E : Env)
    (case_id hospital_block insurer_block : string)
    (reply : string -> string) (queries : list string) :
  (forall query_content : string,
     generate_letter E hospital_block insurer_block
       (PreAuthQueryBlock query_content) "pre-authorization"
     = Some (reply query_content)) ->
  forall (self : EnhancedTPAWithFinalAuth) (r : Pre.t),
    pre_authorizations self !! case_id = Some r ->
    exists r' : Pre.t,
      pre_authorizations
        (handle_preauth_queries E case_id hospital_block insurer_block
           queries self) !! case_id = Some r'
      /\ Pre.queries r'
         = (Pre.queries r
              ++ map (fun query_content =>
                        {| date := isoformat E (now E);
                           query := query_content;
                           response := reply query_content |}) queries)%list
      /\ (queries <> [] -> Pre.approval_status r' = QUERY_REPLIED).
Proof.
  intros Hgen. induction queries as [|q rest IH]; intros self r Hr.
  - exists r. cbn. rewrite app_nil_r. by repeat split.
  - cbn [handle_preauth_queries].
    set (self1 := snd (handle_preauth_query E case_id q hospital_block
                         insurer_block self)).
    assert (Hr1 : pre_authorizations self1 !! case_id
                  = Some (pre_auth_replied
                            {| date := isoformat E (now E); query := q;
                               response := reply q |} r)).
    { subst self1. run_method. rewrite Hr. cbn [fst snd].
      rewrite Hgen. cbn. rewrite !lookup_alter_eq, Hr. reflexivity. }
    destruct (IH self1 _ Hr1) as (r' & Hr' & Hqueries & Hstatus).
    exists r'. split; [exact Hr'|]. split.
    + rewrite Hqueries. cbn. rewrite <- app_assoc. reflexivity.
    + intros _. destruct rest as [|q' rest'].
      * cbn in Hr'. rewrite Hr1 in Hr'. by injection Hr' as <-.
      * by apply Hstatus.
Qed.

Lemma handle_preauth_queries_appends_in_order_witness :
  exists r' : Pre.t,
    pre_authorizations
      (handle_preauth_queries env_up "C1" "H" "I" ["Why?"; "How long?"]
         st_requested) !! "C1" = Some r'
    /\ Pre.queries r'
       = [ {| date := "2023-11-14T22:13:20"; query := "Why?";
              response := "<pre>letter</pre>" |};
           {| date := "2023-11-14T22:13:20"; query := "How long?";
              response := "<pre>letter</pre>" |} ].
Proof.
  destruct (handle_preauth_queries_appends_in_order env_up "C1" "H" "I"
              (fun _ => "<pre>letter</pre>") ["Why?"; "How long?"]
              (fun _ => eq_refl) st_requested _ eq_refl)
    as (r' & Hr' & Hqueries & _).
  exists r'. split; [exact Hr' | exact Hqueries].
Defined.

(** ** From the approval to the final request *)



(** * The web layer *)

(** ** Tenant scoping *)

(** X19. [tenant_ok] lets a request through for a row exactly when the token
    is a superadmin's, or carries no hospital at all, or carries the row's
    own hospital. *)
Theorem tenant_ok_iff (c : App.Claims) (row_hid : Z) :
  App.tenant_ok c row_hid = true
  <-> App.role c = Some ROLE_SUPERADMIN
      \/ App.hospital_id c = None
      \/ App.hospital_id c = Some row_hid.
Proof.
  unfold App.tenant_ok, App.current_hid.
  destruct (bool_decide_reflect (App.role c = Some ROLE_SUPERADMIN))
    as [Hsuper|Hother].
  - split; [by left | done].
  - destruct (App.hospital_id c) as [hid|].
    + rewrite bool_decide_eq_true. split.
      * intros ->. by right; right.
      * intros [?|[?|[= ->]]]; done.
    + split; [by right; left | done].
Qed.

(** ** Login *)

Lemma unique_by_id (l : list User.t) (u u' : User.t) :
  NoDup (map User.id l) -> In u l -> In u' l -> User.id u = User.id u' ->
  u = u'.
Proof.
  induction l as [|x l IH]; [done|].
  cbn. intros Hnodup Hu Hu' Hid.
  apply NoDup_cons in Hnodup as [Hx Hnodup].
  rewrite list_elem_of_In in Hx.
  destruct Hu as [->|Hu], Hu' as [->|Hu']; [done|..|by apply IH].
  - exfalso. apply Hx. rewrite Hid. by apply in_map.
  - exfalso. apply Hx. rewrite <- Hid. by apply in_map.
Qed.

Lemma user_get_found (db : App.Db) (u : User.t) :
  In u (App.users db) ->
  exists u', App.user_get db (User.id u) = Some u'
             /\ In u' (App.users db) /\ User.id u' = User.id u.
Proof.
  intros Hin. unfold App.user_get.
  destruct (List.find _ (App.users db)) as [u'|] eqn:Hfind.
  - apply find_some in Hfind as [Hin' Hid].
    apply bool_decide_eq_true in Hid. by exists u'.
  - exfalso. apply (find_none _ _ Hfind u) in Hin.
    by rewrite bool_decide_eq_true_2 in Hin.
Qed.



(** X21. With user ids unique, the token [/auth/login] gives to a user who
    is not a superadmin carries that user's hospital, and [tenant_ok] then
    holds for the rows of this hospital and for no other row. *)
Theorem login_scopes_tenant (check_password_hash : string -> string -> bool)
    (db : App.Db) (data : App.Credentials) (t : App.Token) :
  NoDup (map User.id (App.users db)) ->
  App.login check_password_hash db data = Some (App.access_token t) ->
  App.role (App.token_claims t) <> Some ROLE_SUPERADMIN ->
  exists h : Hospital.t,
    In h (App.hospitals db)
    /\ Hospital.is_active h = true
    /\ App.hospital_id (App.token_claims t) = Some (Hospital.id h)
    /\ forall row_hid : Z,
         App.tenant_ok (App.token_claims t) row_hid = true
         <-> row_hid = Hospital.id h.
Proof.
  intros Hnodup Hlogin Hrole. revert Hlogin.
  unfold App.login, App.user_by_email.
  destruct (List.find _ (App.users db)) as [u|] eqn:Hfind; [|discriminate].
  apply find_some in Hfind as [Hin _].
  destruct (check_password_hash _ _); cbn [negb]; [|discriminate].
  destruct (user_get_found db u Hin) as (u' & Hget & Hin' & Hid).
  assert (u' = u) as -> by (by apply (unique_by_id (App.users db))).
  unfold App.create_access_token, App.add_claims. rewrite Hget.
  destruct (bool_decide_reflect (User.role u <> Some ROLE_SUPERADMIN))
    as [Hother|Hsuper].
  - unfold App.hospital_get.
    destruct (User.hospital_id u) as [i|] eqn:Hhid; [|discriminate].
    destruct (List.find _ (App.hospitals db)) as [h|] eqn:Hh; [|discriminate].
    apply find_some in Hh as [Hhin Hhid'].
    apply bool_decide_eq_true in Hhid'.
    destruct (Hospital.is_active h) eqn:Hactive; cbn [negb]; [|discriminate].
    intros [= <-]. exists h. cbn in *. rewrite Hhid'.
    split; [done|]. split; [done|]. split; [done|].
    intros row_hid. unfold App.tenant_ok, App.current_hid. cbn.
    rewrite bool_decide_eq_false_2 by exact Hother.
    rewrite bool_decide_eq_true. split; congruence.
  - cbn [negb]. intros [= <-]. cbn in Hrole.
    exfalso. apply Hsuper. exact Hrole.
Qed.

Lemma login_scopes_tenant_witness :
  NoDup (map User.id (App.users db_sample))
  /\ exists (t : App.Token) (h : Hospital.t),
       App.login check_sample db_sample
         {| App.cred_email := "staff@h7"; App.cred_password := "h-staff" |}
       = Some (App.access_token t)
       /\ App.hospital_id (App.token_claims t) = Some (Hospital.id h)
       /\ App.tenant_ok (App.token_claims t) (Hospital.id h) = true.
Proof.
  assert (Hnodup : NoDup (map User.id (App.users db_sample)))
    by compute_done.
  split; [exact Hnodup|]. eexists.
  destruct (login_scopes_tenant check_sample db_sample
              {| App.cred_email := "staff@h7";
                 App.cred_password := "h-staff" |}
              _ Hnodup eq_refl) as (h & _ & _ & Hhid & Hscope);
    [discriminate|].
  exists h. split; [reflexivity|]. split; [exact Hhid|].
  by apply Hscope.
Defined.

(** X22. [/auth/login] never looks at the user's own [is_active] flag: with
    every account switched off it gives the same answer, so a deactivated
    user of an active hospital still gets a token. *)
Theorem login_ignores_user_is_active
    (check_password_hash : string -> string -> bool) (db : App.Db)
    (data : App.Credentials) :
  App.login check_password_hash (deactivate_users db) data
  = App.login check_password_hash db data.
Proof.
  unfold App.login, App.user_by_email, App.create_access_token,
    App.add_claims, App.user_get, App.hospital_get, deactivate_users.
  cbn [App.users App.hospitals].
  assert (Hfind : forall (f : User.t -> bool) (l : list User.t),
    (forall u, f (User.mk (User.id u) (User.email u) (User.password_hash u)
                   (User.role u) (User.hospital_id u) false) = f u) ->
    List.find f
      (map (fun u => User.mk (User.id u) (User.email u)
                       (User.password_hash u) (User.role u)
                       (User.hospital_id u) false) l)
    = option_map (fun u => User.mk (User.id u) (User.email u)
                             (User.password_hash u) (User.role u)
                             (User.hospital_id u) false)
        (List.find f l)).
  { intros f l Hf. induction l as [|x l IH]; [done|].
    cbn. rewrite Hf. by destruct (f x). }
  rewrite Hfind by done.
  destruct (List.find _ (App.users db)) as [u|]; cbn; [|done].
  destruct (check_password_hash _ _); cbn [negb]; [|done].
  rewrite Hfind by done.
  by destruct (List.find _ (App.users db)).
Qed.

(** ** Sender settings *)

(** X23. [resolve_sender] prefers the hospital's own settings: a host, user,
    password, sender name or sender address that is set and not empty, and a
    port that is set and not zero, is returned as it is whatever the
    environment holds, and with such a port the call cannot fail. *)
Theorem resolve_sender_hospital_first (environ : gmap string string)
    (int : string -> option Z) (h : Hospital.t) (p : Z) :
  Hospital.smtp_port h = Some p ->
  p <> 0%Z ->
  exists cfg : App.Sender,
    App.resolve_sender environ int h = Some cfg
    /\ App.port cfg = p
    /\ (forall s, Hospital.smtp_host h = Some s -> s <> "" ->
                  App.host cfg = Some s)
    /\ (forall s, Hospital.smtp_user h = Some s -> s <> "" ->
                  App.user cfg = Some s)
    /\ (forall s, Hospital.smtp_pass h = Some s -> s <> "" ->
                  App.pwd cfg = Some s)
    /\ (forall s, Hospital.sender_name h = Some s -> s <> "" ->
                  App.sender_name cfg = Some s)
    /\ (forall s, Hospital.sender_email h = Some s -> s <> "" ->
                  App.sender_email cfg = Some s).
Proof.
  intros Hport Hnz. unfold App.resolve_sender. rewrite Hport.
  rewrite bool_decide_eq_false_2 by exact Hnz.
  eexists. split; [reflexivity|]. cbn.
  repeat split; intros s -> Hs; cbn; by rewrite bool_decide_eq_false_2.
Qed.

Lemma resolve_sender_hospital_first_witness :
  Hospital.smtp_port hospital_H8 = Some 587%Z
  /\ exists cfg : App.Sender,
       App.resolve_sender {[ "SMTP_HOST" := "smtp.global.example";
                             "SMTP_PORT" := "not a number" ]}
         int_sample hospital_H8 = Some cfg
       /\ App.port cfg = 587%Z
       /\ App.host cfg = Some "smtp.h8.example".
Proof.
  split; [reflexivity|].
  destruct (resolve_sender_hospital_first
              {[ "SMTP_HOST" := "smtp.global.example";
                 "SMTP_PORT" := "not a number" ]}
              int_sample hospital_H8 587 eq_refl)
    as (cfg & Hcfg & Hport & Hhost & _); [discriminate|].
  exists cfg. split; [exact Hcfg|]. split; [exact Hport|].
  apply Hhost; [reflexivity | discriminate].
Defined.

(** X24. With nothing configured anywhere (a hospital whose sender fields
    are unset or empty and whose port is unset or zero, and an environment
    without [SMTP_HOST], [SMTP_PORT], [SMTP_USER], [SMTP_PASS],
    [SENDER_NAME] and [SENDER_EMAIL]) [resolve_sender] answers port
    [int("465")] and sender name ["TPA Desk"], and leaves host, user,
    password and sender address [None].  A port of zero or an empty string
    counts as unset. *)
Theorem resolve_sender_defaults (environ : gmap string string)
    (int : string -> option Z) (h : Hospital.t) (port465 : Z) :
  (Hospital.smtp_host h = None \/ Hospital.smtp_host h = Some "") ->
  (Hospital.smtp_port h = None \/ Hospital.smtp_port h = Some 0%Z) ->
  (Hospital.smtp_user h = None \/ Hospital.smtp_user h = Some "") ->
  (Hospital.smtp_pass h = None \/ Hospital.smtp_pass h = Some "") ->
  (Hospital.sender_name h = None \/ Hospital.sender_name h = Some "") ->
  (Hospital.sender_email h = None \/ Hospital.sender_email h = Some "") ->
  (forall k : string,
     k ∈ ["SMTP_HOST"; "SMTP_PORT"; "SMTP_USER"; "SMTP_PASS"; "SENDER_NAME";
          "SENDER_EMAIL"] -> environ !! k = None) ->
  int "465" = Some port465 ->
  App.resolve_sender environ int h
  = Some {| App.host := None;
            App.port := port465;
            App.user := None;
            App.pwd := None;
            App.sender_name := Some "TPA Desk";
            App.sender_email := None |}.
Proof.
  intros [Hh|Hh] [Hp|Hp] [Hu|Hu] [Hw|Hw] [Hn|Hn] [He|He] Henv Hint;
    unfold App.resolve_sender; rewrite Hh, Hp, Hu, Hw, Hn, He; cbn;
    rewrite !Henv by set_solver; cbn; rewrite Hint; reflexivity.
Qed.

Lemma resolve_sender_defaults_witness :
  App.resolve_sender ∅ int_sample hospital_H7
  = Some {| App.host := None;
            App.port := 465;
            App.user := None;
            App.pwd := None;
            App.sender_name := Some "TPA Desk";
            App.sender_email := None |}.
Proof.
  apply (resolve_sender_defaults ∅ int_sample hospital_H7 465);
    try (left; reflexivity); [|reflexivity].
  intros k _. apply lookup_empty.
Defined.
